(** * OpsFleet data-analysis agent: the orchestration core

    A shallow embedding of [src/agent/state.py], [src/agent/nodes.py],
    [src/agent/graph.py], [src/tools/bigquery_tools.py] and the two helpers of
    [src/prompts/system_prompts.py], with the properties of the workflow
    proved over it.

    Text.  A Python [str] is modelled by [string]; a character is one of the
    code points U+0000..U+00FF.  [str.lower], [str.strip] and [str.split]
    follow CPython on that range.

    Effects.  The generation backend, the warehouse client and the schema
    catalogue are oracles of an environment [Env]; every call to one of them
    is appended to a [Trace], which is threaded through the steps by the
    state monad [M]. *)

From Stdlib Require Import String Ascii List Bool Arith ZArith Lia.
From Stdlib Require Import DecimalString.
Import ListNotations.

Local Open Scope list_scope.
Local Open Scope string_scope.

(* ===================================================================== *)
(** ** Python strings *)
(* ===================================================================== *)

Module Py.

(** [c.isspace()] for the code points below 256: TAB..CR, FS..US, SPACE,
    NEL and NBSP. *)
Definition isspace (c : ascii) : bool :=
  let n := nat_of_ascii c in
  (((9 <=? n) && (n <=? 13)) || ((28 <=? n) && (n <=? 32))
   || (n =? 133) || (n =? 160))%nat.

(** [c.lower()]: A..Z and the Latin-1 capitals (all of U+00C0..U+00DE but the
    multiplication sign) move up by 32. *)
Definition lower_char (c : ascii) : ascii :=
  let n := nat_of_ascii c in
  if (((65 <=? n) && (n <=? 90))
      || ((192 <=? n) && (n <=? 222) && negb (n =? 215)))%nat
  then ascii_of_nat (n + 32) else c.

(** [s.lower()] *)
Fixpoint lower (s : string) : string :=
  match s with
  | EmptyString => EmptyString
  | String c s' => String (lower_char c) (lower s')
  end.

(** Truth value of a [str]: the empty string is false. *)
Definition nonempty (s : string) : bool :=
  match s with EmptyString => false | String _ _ => true end.

(** [s.lstrip()] *)
Fixpoint lstrip (s : string) : string :=
  match s with
  | EmptyString => EmptyString
  | String c s' => if isspace c then lstrip s' else s
  end.

(** [s.rstrip()] *)
Fixpoint rstrip (s : string) : string :=
  match s with
  | EmptyString => EmptyString
  | String c s' =>
      let r := rstrip s' in
      if isspace c && negb (nonempty r) then EmptyString else String c r
  end.

(** [s.strip()] *)
Definition strip (s : string) : string := lstrip (rstrip s).

(** [s.startswith(p)] *)
Fixpoint startswith (s p : string) {struct p} : bool :=
  match p, s with
  | EmptyString, _ => true
  | String _ _, EmptyString => false
  | String a p', String b s' => Ascii.eqb a b && startswith s' p'
  end.

(** [sub in s] for two strings *)
Fixpoint contains (s sub : string) : bool :=
  startswith s sub ||
  match s with
  | EmptyString => false
  | String _ s' => contains s' sub
  end.

(** [s.replace(old, new)] for a non-empty [old]: occurrences are taken from
    the left and do not overlap; [skip] counts the characters of the
    occurrence just replaced that are still to be passed over. *)
Fixpoint replace_from (skip : nat) (old new s : string) : string :=
  match s with
  | EmptyString => EmptyString
  | String c s' =>
      match skip with
      | S k => replace_from k old new s'
      | O =>
          if startswith s old
          then new ++ replace_from (String.length old - 1) old new s'
          else String c (replace_from 0 old new s')
      end
  end.

(** With an empty [old], Python puts [new] before every character and at the
    end. *)
Fixpoint intersperse (new s : string) : string :=
  match s with
  | EmptyString => new
  | String c s' => new ++ String c (intersperse new s')
  end.

Definition replace (s old new : string) : string :=
  match old with
  | EmptyString => intersperse new s
  | String _ _ => replace_from 0 old new s
  end.

(** [s.split()]: the maximal runs of non-blank characters, in order; [cur]
    is the run being read. *)
Fixpoint split_from (cur s : string) : list string :=
  match s with
  | EmptyString => if nonempty cur then [cur] else []
  | String c s' =>
      if isspace c
      then (if nonempty cur then cur :: split_from EmptyString s'
            else split_from EmptyString s')
      else split_from (cur ++ String c EmptyString) s'
  end.

Definition split (s : string) : list string := split_from EmptyString s.

(** [s.count(c)] for a one-character [c] *)
Fixpoint count (s : string) (c : ascii) : nat :=
  match s with
  | EmptyString => 0
  | String a s' => (if Ascii.eqb a c then 1 else 0) + count s' c
  end.

(** [x in l] for a list of strings *)
Definition mem (x : string) (l : list string) : bool :=
  existsb (String.eqb x) l.

(** [sep.join(l)] *)
Fixpoint join (sep : string) (l : list string) : string :=
  match l with
  | [] => EmptyString
  | [x] => x
  | x :: l' => x ++ sep ++ join sep l'
  end.

(** [str(n)] for a non-negative [int] *)
Definition str_of_nat (n : nat) : string :=
  NilEmpty.string_of_uint (Nat.to_uint n).

(** The line feed. *)
Definition nl : string := String (ascii_of_nat 10) EmptyString.

End Py.

(* ===================================================================== *)
(** ** The outside world *)
(* ===================================================================== *)

(** The outcome of a call that may raise; [Raise msg] carries [str(e)]. *)
Inductive Result (A : Type) : Type :=
| Ok (a : A)
| Raise (msg : string).
Arguments Ok {A} a.
Arguments Raise {A} msg.

(** A [pandas.DataFrame]: named columns and rows of cells. *)
Record DataFrame : Type := {
  columns : list string;
  rows : list (list string)
}.

(** [len(df)] *)
Definition df_len (df : DataFrame) : nat := List.length (rows df).

(** [df.empty]: one of the two axes has length 0. *)
Definition df_empty (df : DataFrame) : bool :=
  (List.length (columns df) =? 0)%nat || (List.length (rows df) =? 0)%nat.

(** [df.head(n)] *)
Definition df_head (n : nat) (df : DataFrame) : DataFrame :=
  {| columns := columns df; rows := firstn n (rows df) |}.

(** A field descriptor of the catalogue. *)
Record Field : Type := {
  f_name : string;
  f_type : string;
  f_description : option string
}.

(** [Dict[str, List[Dict[str, Any]]]], in insertion order. *)
Definition Schema : Type := list (string * list Field).

(** [langchain_core.messages] *)
Inductive BaseMessage : Type :=
| HumanMessage (content : string)
| AIMessage (content : string)
| SystemMessage (content : string).

(** One call that leaves the process. *)
Inductive Event : Type :=
| LlmInvoke (messages : list BaseMessage)
| ExecuteQuery (sql : string)
| GetTableSchema (table : string).

(** The calls made so far, oldest first. *)
Definition Trace : Type := list Event.

(** [bq_client.BigQueryRunner]: what it answers may depend on what was asked
    before. *)
Record BigQueryRunner : Type := {
  execute_query : Trace -> string -> Result DataFrame;
  get_table_schema : Trace -> string -> Result (list Field)
}.

(** The collaborators of one process: the chat model bound into the graph,
    the module-level [_bq_client], the prompt templates with their [format]
    slots as arguments, and [DataFrame.to_string(index=False)]. *)
Record Env : Type := {
  llm : Trace -> list BaseMessage -> Result string;
  _bq_client : option BigQueryRunner;
  INTENT_ANALYSIS_PROMPT : string;
  SQL_GENERATION_PROMPT :
    string (* schema_context *) -> string (* user_query *) ->
    string (* analysis_type *) -> string;
  INSIGHT_GENERATION_PROMPT :
    string (* user_query *) -> string (* analysis_type *) ->
    string (* sql_query *) -> string (* query_results *) -> string;
  ERROR_RECOVERY_PROMPT :
    string (* error_message *) -> string (* failed_query *) ->
    string (* user_query *) -> string;
  to_string : DataFrame -> string
}.

(** Computations that call out: the trace is read and extended. *)
Definition M (A : Type) : Type := Trace -> A * Trace.

Definition ret {A : Type} (a : A) : M A := fun tr => (a, tr).

Definition bind {A B : Type} (c : M A) (k : A -> M B) : M B :=
  fun tr => let (a, tr') := c tr in k a tr'.

Declare Scope m_scope.
Delimit Scope m_scope with M.
Notation "x <- c ;; k" := (bind c (fun x => k))
  (at level 61, c at next level, right associativity) : m_scope.

(** An outside call answers from the trace so far and is then recorded. *)
Definition call {A : Type} (answer : Trace -> A) (ev : Event) : M A :=
  fun tr => (answer tr, (tr ++ [ev])%list).

(** [llm.invoke(messages)], read through [response.content]. *)
Definition llm_invoke (env : Env) (messages : list BaseMessage)
  : M (Result string) :=
  call (fun tr => llm env tr messages) (LlmInvoke messages).

(* ===================================================================== *)
(** ** tools/bigquery_tools.py *)
(* ===================================================================== *)

(** [get_bigquery_client] *)
Definition get_bigquery_client (env : Env) : Result BigQueryRunner :=
  match _bq_client env with
  | None =>
      Raise "BigQuery client not initialized. Call initialize_bigquery_client() first."
  | Some client => Ok client
  end.

(** [execute_query_direct] *)
Definition execute_query_direct (env : Env) (sql_query : string)
  : M (Result DataFrame) :=
  match get_bigquery_client env with
  | Raise msg => ret (Raise msg)
  | Ok client =>
      call (fun tr => execute_query client tr sql_query)
           (ExecuteQuery sql_query)
  end.

Definition main_tables : list string :=
  ["orders"; "order_items"; "products"; "users"].

(** The loop of [get_all_table_schemas]: a table whose lookup raises gets an
    empty field list. *)
Fixpoint fetch_schemas (client : BigQueryRunner) (tables : list string)
  : M Schema :=
  match tables with
  | [] => ret []
  | table :: rest =>
      (r <- call (fun tr => get_table_schema client tr table)
                 (GetTableSchema table) ;;
       schemas <- fetch_schemas client rest ;;
       ret ((table, match r with Ok fields => fields | Raise _ => [] end)
              :: schemas))%M
  end.

(** [get_all_table_schemas] *)
Definition get_all_table_schemas (env : Env) : M (Result Schema) :=
  match get_bigquery_client env with
  | Raise msg => ret (Raise msg)
  | Ok client =>
      (schemas <- fetch_schemas client main_tables ;; ret (Ok schemas))%M
  end.

Definition dangerous_keywords : list string :=
  ["drop"; "delete"; "truncate"; "insert"; "update"; "alter"; "create"].

(** [validate_sql_query] *)
Definition validate_sql_query (sql_query : string) : bool * option string :=
  let sql_lower := Py.strip (Py.lower sql_query) in
  match find (fun keyword => Py.mem keyword (Py.split sql_lower))
             dangerous_keywords with
  | Some keyword =>
      (false,
       Some ("Query contains dangerous keyword: " ++ keyword
             ++ ". Only SELECT queries are allowed."))
  | None =>
      if negb (Py.startswith sql_lower "select")
      then (false, Some "Query must be a SELECT statement.")
      else if negb (Py.count sql_lower "(" =? Py.count sql_lower ")")%nat
      then (false, Some "Unbalanced parentheses in query.")
      else (true, None)
  end.

(* ===================================================================== *)
(** ** prompts/system_prompts.py *)
(* ===================================================================== *)

(** The inner loop of [get_schema_context_string]. *)
Fixpoint fields_string (fields : list Field) : string :=
  match fields with
  | [] => ""
  | field :: rest =>
      "  - " ++ f_name field ++ " (" ++ f_type field ++ ")"
      ++ match f_description field with
         | Some d => if Py.nonempty d then ": " ++ d else ""
         | None => ""
         end
      ++ Py.nl ++ fields_string rest
  end.

(** [get_schema_context_string] *)
Fixpoint get_schema_context_string (schema_dict : Schema) : string :=
  match schema_dict with
  | [] => ""
  | (table_name, fields) :: rest =>
      Py.nl ++ "Table: " ++ table_name ++ Py.nl
      ++ "Columns:" ++ Py.nl
      ++ fields_string fields
      ++ Py.nl ++ get_schema_context_string rest
  end.

(** The multiplication sign of the shape line. *)
Definition times : string := String (ascii_of_nat 215) EmptyString.

(** [format_dataframe_for_prompt], called on a frame that is not [None]. *)
Definition format_dataframe_for_prompt (env : Env) (df : DataFrame)
    (max_rows : nat) : string :=
  if df_empty df then "No data returned"
  else
    let result :=
      "Shape: " ++ Py.str_of_nat (df_len df) ++ " rows " ++ times ++ " "
      ++ Py.str_of_nat (List.length (columns df)) ++ " columns"
      ++ Py.nl ++ Py.nl
      ++ "Columns: " ++ Py.join ", " (columns df) ++ Py.nl ++ Py.nl in
    if (max_rows <? df_len df)%nat
    then result
         ++ "Showing first " ++ Py.str_of_nat max_rows ++ " rows:" ++ Py.nl
         ++ to_string env (df_head max_rows df)
         ++ Py.nl ++ Py.nl ++ "... ("
         ++ Py.str_of_nat (df_len df - max_rows) ++ " more rows)"
    else result ++ to_string env df.

(* ===================================================================== *)
(** ** agent/state.py *)
(* ===================================================================== *)

(** [AgentState]; every key is present, as in the state [run_analysis]
    builds. *)
Record AgentState : Type := {
  messages : list BaseMessage;
  user_query : string;
  analysis_type : option string;
  sql_query : option string;
  query_results : option DataFrame;
  insights : option string;
  error : option string;
  retry_count : Z;
  schema_context : option Schema
}.

Module AnalysisType.

Definition CUSTOMER_SEGMENTATION : string := "customer_segmentation".
Definition PRODUCT_PERFORMANCE : string := "product_performance".
Definition SALES_TRENDS : string := "sales_trends".
Definition GEOGRAPHIC_PATTERNS : string := "geographic_patterns".
Definition GENERAL_QUERY : string := "general_query".

(** [AnalysisType.all_types] *)
Definition all_types : list string :=
  [CUSTOMER_SEGMENTATION; PRODUCT_PERFORMANCE; SALES_TRENDS;
   GEOGRAPHIC_PATTERNS; GENERAL_QUERY].

End AnalysisType.

(** The dictionary a node returns: [None] for a key it does not mention,
    [Some v] for a key it sets to [v]. *)
Record Update : Type := {
  u_messages : option (list BaseMessage);
  u_analysis_type : option (option string);
  u_sql_query : option (option string);
  u_query_results : option (option DataFrame);
  u_insights : option (option string);
  u_error : option (option string);
  u_retry_count : option Z;
  u_schema_context : option (option Schema)
}.

(** [{}] *)
Definition no_update : Update :=
  {| u_messages := None; u_analysis_type := None; u_sql_query := None;
     u_query_results := None; u_insights := None; u_error := None;
     u_retry_count := None; u_schema_context := None |}.

Definition with_messages (v : list BaseMessage) (u : Update) : Update :=
  {| u_messages := Some v; u_analysis_type := u_analysis_type u;
     u_sql_query := u_sql_query u; u_query_results := u_query_results u;
     u_insights := u_insights u; u_error := u_error u;
     u_retry_count := u_retry_count u;
     u_schema_context := u_schema_context u |}.

Definition with_analysis_type (v : option string) (u : Update) : Update :=
  {| u_messages := u_messages u; u_analysis_type := Some v;
     u_sql_query := u_sql_query u; u_query_results := u_query_results u;
     u_insights := u_insights u; u_error := u_error u;
     u_retry_count := u_retry_count u;
     u_schema_context := u_schema_context u |}.

Definition with_sql_query (v : option string) (u : Update) : Update :=
  {| u_messages := u_messages u; u_analysis_type := u_analysis_type u;
     u_sql_query := Some v; u_query_results := u_query_results u;
     u_insights := u_insights u; u_error := u_error u;
     u_retry_count := u_retry_count u;
     u_schema_context := u_schema_context u |}.

Definition with_query_results (v : option DataFrame) (u : Update) : Update :=
  {| u_messages := u_messages u; u_analysis_type := u_analysis_type u;
     u_sql_query := u_sql_query u; u_query_results := Some v;
     u_insights := u_insights u; u_error := u_error u;
     u_retry_count := u_retry_count u;
     u_schema_context := u_schema_context u |}.

Definition with_insights (v : option string) (u : Update) : Update :=
  {| u_messages := u_messages u; u_analysis_type := u_analysis_type u;
     u_sql_query := u_sql_query u; u_query_results := u_query_results u;
     u_insights := Some v; u_error := u_error u;
     u_retry_count := u_retry_count u;
     u_schema_context := u_schema_context u |}.

Definition with_error (v : option string) (u : Update) : Update :=
  {| u_messages := u_messages u; u_analysis_type := u_analysis_type u;
     u_sql_query := u_sql_query u; u_query_results := u_query_results u;
     u_insights := u_insights u; u_error := Some v;
     u_retry_count := u_retry_count u;
     u_schema_context := u_schema_context u |}.

Definition with_retry_count (v : Z) (u : Update) : Update :=
  {| u_messages := u_messages u; u_analysis_type := u_analysis_type u;
     u_sql_query := u_sql_query u; u_query_results := u_query_results u;
     u_insights := u_insights u; u_error := u_error u;
     u_retry_count := Some v;
     u_schema_context := u_schema_context u |}.

Definition with_schema_context (v : option Schema) (u : Update) : Update :=
  {| u_messages := u_messages u; u_analysis_type := u_analysis_type u;
     u_sql_query := u_sql_query u; u_query_results := u_query_results u;
     u_insights := u_insights u; u_error := u_error u;
     u_retry_count := u_retry_count u;
     u_schema_context := Some v |}.

(** A key without a reducer takes the value the node returned. *)
Definition last_value {A : Type} (old : A) (new : option A) : A :=
  match new with Some v => v | None => old end.

(** How the graph engine folds a node's dictionary into the state:
    [messages] is annotated with [operator.add], so what the node returned is
    concatenated to what is there; the other keys are replaced. *)
Definition apply_update (st : AgentState) (u : Update) : AgentState :=
  {| messages :=
       match u_messages u with
       | Some new => (messages st ++ new)%list
       | None => messages st
       end;
     user_query := user_query st;
     analysis_type := last_value (analysis_type st) (u_analysis_type u);
     sql_query := last_value (sql_query st) (u_sql_query u);
     query_results := last_value (query_results st) (u_query_results u);
     insights := last_value (insights st) (u_insights u);
     error := last_value (error st) (u_error u);
     retry_count := last_value (retry_count st) (u_retry_count u);
     schema_context := last_value (schema_context st) (u_schema_context u) |}.

(** Truth value of an [Optional[str]]: [None] and the empty string are
    false. *)
Definition truthy (o : option string) : bool :=
  match o with
  | Some s => Py.nonempty s
  | None => false
  end.

(** Truth value of an optional dictionary. *)
Definition truthy_schema (o : option Schema) : bool :=
  match o with
  | Some (_ :: _) => true
  | _ => false
  end.

(** How an [Optional[str]] prints in an f-string or a [format] slot. *)
Definition str_of (o : option string) : string :=
  match o with
  | Some s => s
  | None => "None"
  end.

(* ===================================================================== *)
(** ** agent/nodes.py *)
(* ===================================================================== *)

(** [analyze_request_node] *)
Definition analyze_request_node (env : Env) (state : AgentState) : M Update :=
  let combined_prompt :=
    INTENT_ANALYSIS_PROMPT env ++ Py.nl ++ Py.nl
    ++ "User Query: " ++ user_query state in
  (r <- llm_invoke env [HumanMessage combined_prompt] ;;
   ret match r with
       | Ok content =>
           let analysis_type := Py.lower (Py.strip content) in
           let analysis_type :=
             if negb (Py.mem analysis_type AnalysisType.all_types)
             then AnalysisType.GENERAL_QUERY else analysis_type in
           with_error None
             (with_analysis_type (Some analysis_type) no_update)
       | Raise e =>
           with_error (Some ("Intent analysis error: " ++ e))
             (with_analysis_type (Some AnalysisType.GENERAL_QUERY) no_update)
       end)%M.

(** The clean-up of markdown formatting in [generate_sql_node]
    (nodes.py, lines 121-127), from the backend's answer to the SQL text. *)
Definition strip_code_fence (content : string) : string :=
  let sql_query := Py.strip content in
  if Py.startswith sql_query "```sql"
  then Py.strip (Py.replace (Py.replace sql_query "```sql" "") "```" "")
  else if Py.startswith sql_query "```"
  then Py.strip (Py.replace sql_query "```" "")
  else sql_query.

(** [generate_sql_node] *)
Definition generate_sql_node (env : Env) (state : AgentState) : M Update :=
  (fetched <- match schema_context state with
              | Some ((_ :: _) as cached) => ret (Ok cached)
              | _ => get_all_table_schemas env
              end ;;
   match fetched with
   | Raise e =>
       ret (with_sql_query None
              (with_error (Some ("Schema retrieval error: " ++ e)) no_update))
   | Ok schema_context =>
       let schema_string := get_schema_context_string schema_context in
       let failed_query :=
         if truthy (error state) then sql_query state else None in
       let error_message :=
         if truthy failed_query then error state else None in
       let prompt :=
         if truthy failed_query && truthy error_message
         then ERROR_RECOVERY_PROMPT env (str_of error_message)
                (str_of failed_query) (user_query state)
         else SQL_GENERATION_PROMPT env schema_string (user_query state)
                (str_of (analysis_type state)) in
       r <- llm_invoke env [HumanMessage prompt] ;;
       ret match r with
           | Ok content =>
               let sql_query := strip_code_fence content in
               match validate_sql_query sql_query with
               | (false, validation_error) =>
                   with_sql_query (Some sql_query)
                     (with_error
                        (Some ("Invalid SQL: " ++ str_of validation_error))
                        no_update)
               | (true, _) =>
                   with_error None
                     (with_schema_context (Some schema_context)
                        (with_sql_query (Some sql_query) no_update))
               end
           | Raise e =>
               with_sql_query None
                 (with_error (Some ("SQL generation error: " ++ e)) no_update)
           end
   end)%M.

(** [execute_query_node] *)
Definition execute_query_node (env : Env) (state : AgentState) : M Update :=
  match sql_query state with
  | Some ((String _ _) as sql_query) =>
      (r <- execute_query_direct env sql_query ;;
       ret match r with
           | Ok df =>
               with_retry_count 0%Z
                 (with_error None (with_query_results (Some df) no_update))
           | Raise error_msg =>
               with_retry_count (retry_count state + 1)%Z
                 (with_query_results None
                    (with_error
                       (Some ("Query execution error: " ++ error_msg))
                       no_update))
           end)%M
  | _ =>
      ret (with_query_results None
             (with_error (Some "No SQL query to execute") no_update))
  end.

Definition no_data_insight : string :=
  "No data was returned from the query. The requested analysis could not be completed.".

(** [analyze_results_node] *)
Definition analyze_results_node (env : Env) (state : AgentState) : M Update :=
  let short_circuit :=
    ret (with_error None (with_insights (Some no_data_insight) no_update)) in
  match query_results state with
  | None => short_circuit
  | Some query_results =>
      if df_empty query_results then short_circuit
      else
        let results_string :=
          format_dataframe_for_prompt env query_results 20 in
        let prompt :=
          INSIGHT_GENERATION_PROMPT env (user_query state)
            (str_of (analysis_type state)) (str_of (sql_query state))
            results_string in
        (r <- llm_invoke env [HumanMessage prompt] ;;
         ret match r with
             | Ok content =>
                 with_error None
                   (with_insights (Some (Py.strip content)) no_update)
             | Raise e =>
                 let fallback_insights :=
                   "Query executed successfully and returned "
                   ++ Py.str_of_nat (df_len query_results) ++ " rows. "
                   ++ "Columns: " ++ Py.join ", " (columns query_results)
                   ++ ". "
                   ++ "However, detailed analysis could not be generated due to an error." in
                 with_error (Some ("Insight generation error: " ++ e))
                   (with_insights (Some fallback_insights) no_update)
             end)%M
  end.

(** [respond_node].  The step raises where Python does: in the last branch
    [insights] may be [None], and then either [+=] or the constructor of
    [AIMessage] fails. *)
Definition respond_node (state : AgentState) : Result Update :=
  let insights := insights state in
  let error := error state in
  let response_content : option string :=
    if truthy error && negb (truthy insights)
    then Some ("I apologize, but I encountered an error processing your request:"
               ++ Py.nl ++ Py.nl ++ str_of error ++ Py.nl ++ Py.nl
               ++ "Please try rephrasing your question or ask something else.")
    else if truthy error && truthy insights
    then Some (str_of insights ++ Py.nl ++ Py.nl
               ++ "(Note: There was a minor issue: " ++ str_of error ++ ")")
    else insights in
  let summary : option string :=
    match query_results state with
    | Some df =>
        if negb (df_empty df)
        then Some (Py.nl ++ Py.nl ++ "---" ++ Py.nl ++ "Data Summary: "
                   ++ Py.str_of_nat (df_len df) ++ " rows analyzed")
        else None
    | None => None
    end in
  match response_content, summary with
  | Some content, Some suffix =>
      Ok (with_messages [AIMessage (content ++ suffix)] no_update)
  | Some content, None => Ok (with_messages [AIMessage content] no_update)
  | None, Some _ =>
      Raise "unsupported operand type(s) for +=: 'NoneType' and 'str'"
  | None, None => Raise "validation error for AIMessage: content"
  end.

Definition non_retryable : list string :=
  ["permission"; "authentication"; "credentials"; "quota"].

(** [should_retry_query] *)
Definition should_retry_query (state : AgentState) : bool :=
  let max_retries := 2%Z in
  if truthy (error state) && (retry_count state <? max_retries)%Z
  then
    let error_lower := Py.lower (str_of (error state)) in
    if existsb (fun term => Py.contains error_lower term) non_retryable
    then false
    else true
  else false.

(* ===================================================================== *)
(** ** agent/graph.py *)
(* ===================================================================== *)

(** The names of the nodes of the graph. *)
Module Node.

Inductive t : Type :=
| analyze_request
| generate_sql
| execute_query
| analyze_results
| respond.

End Node.

(** [route_after_execution] *)
Definition route_after_execution (state : AgentState) : Node.t :=
  if truthy (error state) && should_retry_query state
  then Node.generate_sql
  else match query_results state with
       | Some _ => Node.analyze_results
       | None =>
           if truthy (error state) then Node.respond
           else Node.analyze_results
       end.

(** The function bound to each node by [add_node]. *)
Definition run_node (env : Env) (n : Node.t) (state : AgentState)
  : M (Result Update) :=
  match n with
  | Node.analyze_request =>
      (u <- analyze_request_node env state ;; ret (Ok u))%M
  | Node.generate_sql => (u <- generate_sql_node env state ;; ret (Ok u))%M
  | Node.execute_query => (u <- execute_query_node env state ;; ret (Ok u))%M
  | Node.analyze_results =>
      (u <- analyze_results_node env state ;; ret (Ok u))%M
  | Node.respond => ret (respond_node state)
  end.

(** The edges of the graph; [None] is [END]. *)
Definition next_node (n : Node.t) (state : AgentState) : option Node.t :=
  match n with
  | Node.analyze_request => Some Node.generate_sql
  | Node.generate_sql => Some Node.execute_query
  | Node.execute_query => Some (route_after_execution state)
  | Node.analyze_results => Some Node.respond
  | Node.respond => None
  end.

(** How a run of the compiled graph ends. *)
Inductive Outcome : Type :=
| Finished (final_state : AgentState)
| Raised (msg : string)
| RecursionLimit.

(** What the engine makes of a run that has reached [END] with [left]
    steps of the recursion limit unused: it returns the state when a step
    is left, and raises its recursion error when the run has used up the
    limit. *)
Definition at_end (left : nat) (state : AgentState) : Outcome :=
  match left with
  | O => RecursionLimit
  | S _ => Finished state
  end.

(** The compiled graph, started at node [n]: run the node, fold its
    dictionary into the state, follow the edge.  [limit] is the engine's
    recursion limit: no more than [limit] nodes are run, and a run finishes
    only if it needs fewer than [limit] nodes. *)
Fixpoint graph_run (env : Env) (limit : nat) (n : Node.t) (state : AgentState)
  : M Outcome :=
  match limit with
  | O => ret RecursionLimit
  | S limit' =>
      (r <- run_node env n state ;;
       match r with
       | Raise msg => ret (Raised msg)
       | Ok u =>
           let state' := apply_update state u in
           match next_node n state' with
           | None => ret (at_end limit' state')
           | Some n' => graph_run env limit' n' state'
           end
       end)%M
  end.

(** [graph.invoke(initial_state)]; the entry point is [analyze_request]. *)
Definition graph_invoke (env : Env) (limit : nat) (initial_state : AgentState)
  : M Outcome :=
  graph_run env limit Node.analyze_request initial_state.

(** The state [run_analysis] starts from. *)
Definition initial_state (user_query : string) : AgentState :=
  {| messages := []; user_query := user_query; analysis_type := None;
     sql_query := None; query_results := None; insights := None;
     error := None; retry_count := 0%Z; schema_context := None |}.

(* ===================================================================== *)
(** ** Vocabulary of the statements *)
(* ===================================================================== *)

(** The reason [validate_sql_query] gives for the forbidden keyword [k]. *)
Definition dangerous_reason (k : string) : string :=
  "Query contains dangerous keyword: " ++ k
  ++ ". Only SELECT queries are allowed.".

(** What [execute_query_node] returns without a query to run. *)
Definition no_query_update : Update :=
  with_query_results None
    (with_error (Some "No SQL query to execute") no_update).

(** [s] begins with [p]. *)
Definition begins_with (s p : string) : Prop := exists rest, s = p ++ rest.

(** [t] holds no blank character. *)
Fixpoint no_space (t : string) : bool :=
  match t with
  | EmptyString => true
  | String c t' => negb (Py.isspace c) && no_space t'
  end.

(** [post] is the end of the text or starts with a blank. *)
Definition blank_ahead (post : string) : Prop :=
  post = "" \/ exists c post', post = String c post' /\ Py.isspace c = true.

(** [pre] ends with a blank. *)
Definition blank_last (pre : string) : Prop :=
  exists pre' c, pre = pre' ++ String c "" /\ Py.isspace c = true.

(** [t] is a whitespace-delimited token of [s]: a non-empty run of
    non-blank characters of [s] with a blank or an end of the text on either
    side. *)
Definition token_of (t s : string) : Prop :=
  t <> "" /\ no_space t = true
  /\ exists pre post, s = pre ++ t ++ post
                      /\ (pre = "" \/ blank_last pre) /\ blank_ahead post.

(** A fenced code block around [s], with the language tag [sql] and
    without a tag. *)
Definition wrap_tagged (s : string) : string :=
  "```sql" ++ Py.nl ++ s ++ Py.nl ++ "```".

Definition wrap_bare (s : string) : string :=
  "```" ++ Py.nl ++ s ++ Py.nl ++ "```".

(** [sub] occurs in [s]. *)
Definition occurs_in (sub s : string) : Prop :=
  exists pre post, s = pre ++ sub ++ post.

(** [sub] occurs in [s] in some mix of upper and lower case. *)
Definition occurs_in_any_case (sub s : string) : Prop :=
  exists pre v post, s = pre ++ v ++ post /\ Py.lower v = sub.

(** The [error] field holds a text that Python counts as true: it is not
    [None] and not the empty string. *)
Definition error_set (state : AgentState) : Prop :=
  exists e, error state = Some e /\ e <> "".

(** The retry condition in the words of the specification, with "error is
    present" read as "is not [None]". *)
Definition retry_as_claimed (state : AgentState) : Prop :=
  error state <> None
  /\ (retry_count state < 2)%Z
  /\ forall e term, error state = Some e -> In term non_retryable ->
                    ~ occurs_in_any_case term e.

(** The routing in the words of the specification, with "error is present"
    read as "is not [None]" and "retry is permitted" decided by
    [should_retry_query]. *)
Definition route_as_claimed (state : AgentState) : Node.t :=
  let present := match error state with Some _ => true | None => false end in
  if present && should_retry_query state then Node.generate_sql
  else match query_results state with
       | Some _ => Node.analyze_results
       | None => if present then Node.respond else Node.analyze_results
       end.

(* ===================================================================== *)
(** ** States and environments of the examples *)
(* ===================================================================== *)

(** A state as the unit tests build them, with the three fields the retry
    and routing functions read. *)
Definition probe_state (error : option string) (retry_count : Z)
    (query_results : option DataFrame) : AgentState :=
  {| messages := []; user_query := "test"; analysis_type := None;
     sql_query := None; query_results := query_results; insights := None;
     error := error; retry_count := retry_count; schema_context := None |}.

Definition three_rows : DataFrame :=
  {| columns := ["col"]; rows := [["1"]; ["2"]; ["3"]] |}.

Definition is_llm_invoke (ev : Event) : bool :=
  match ev with LlmInvoke _ => true | _ => false end.

Definition is_execute_query (ev : Event) : bool :=
  match ev with ExecuteQuery _ => true | _ => false end.

Definition is_get_table_schema (table : string) (ev : Event) : bool :=
  match ev with GetTableSchema t => String.eqb t table | _ => false end.

(** How many times the catalogue was asked for [table]. *)
Definition schema_fetches (table : string) (tr : Trace) : nat :=
  List.length (filter (is_get_table_schema table) tr).

(** The SQL texts handed to the warehouse, oldest first. *)
Fixpoint executed (tr : Trace) : list string :=
  match tr with
  | [] => []
  | ExecuteQuery sql :: tr' => sql :: executed tr'
  | _ :: tr' => executed tr'
  end.

(** A backend that gives its [n]-th answer to the [n]-th call. *)
Definition scripted_llm (answers : list (Result string))
  : Trace -> list BaseMessage -> Result string :=
  fun tr _ =>
    nth (List.length (filter is_llm_invoke tr)) answers
        (Raise "no answer left").

(** A warehouse that gives its [n]-th answer to the [n]-th query and
    describes every table by one column. *)
Definition scripted_runner (answers : list (Result DataFrame))
  : BigQueryRunner :=
  {| execute_query := fun tr _ =>
       nth (List.length (filter is_execute_query tr)) answers
           (Raise "no answer left");
     get_table_schema := fun _ _ =>
       Ok [{| f_name := "id"; f_type := "INTEGER";
              f_description := Some "Identifier" |}] |}.

(** An environment with short prompt templates. *)
Definition scripted_env (llm_answers : list (Result string))
    (warehouse_answers : list (Result DataFrame)) : Env :=
  {| llm := scripted_llm llm_answers;
     _bq_client := Some (scripted_runner warehouse_answers);
     INTENT_ANALYSIS_PROMPT := "Classify the request.";
     SQL_GENERATION_PROMPT := fun schema_context user_query analysis_type =>
       "Tables:" ++ schema_context ++ "Request: " ++ user_query
       ++ " Type: " ++ analysis_type;
     INSIGHT_GENERATION_PROMPT :=
       fun user_query analysis_type sql_query query_results =>
       "Question: " ++ user_query ++ " Type: " ++ analysis_type
       ++ " SQL: " ++ sql_query ++ " Results: " ++ query_results;
     ERROR_RECOVERY_PROMPT := fun error_message failed_query user_query =>
       "Error: " ++ error_message ++ " Query: " ++ failed_query
       ++ " Request: " ++ user_query;
     to_string := fun df => Py.join Py.nl (map (Py.join " ") (rows df)) |}.

(** The backend answers the SQL request with a DROP statement, which the
    warehouse then runs. *)
Definition drop_env : Env :=
  scripted_env [Ok "general_query"; Ok "DROP TABLE t"] [Ok three_rows].

(** The backend fails on the first SQL request and answers the second. *)
Definition backend_failure_env : Env :=
  scripted_env [Ok "general_query"; Raise "backend down"; Ok "SELECT 1";
                Ok "Three rows."]
               [Ok three_rows].

(** The first SQL answer is rejected by the validator and by the
    warehouse; the second is accepted by both. *)
Definition rejected_then_fixed_env : Env :=
  scripted_env [Ok "general_query"; Ok "DROP TABLE t"; Ok "SELECT 1";
                Ok "Three rows."]
               [Raise "Syntax error"; Ok three_rows].

(** The warehouse fails once with a retryable error and then answers. *)
Definition one_failure_env : Env :=
  scripted_env [Ok "sales_trends"; Ok "SELECT a FROM t";
                Ok "```sql
SELECT b FROM t
```"; Ok "Three rows."]
               [Raise "Unrecognized name: a"; Ok three_rows].

(** The backend never answers. *)
Definition silent_env : Env := scripted_env [] [].

(* ===================================================================== *)
(** ** agent/graph.py: the caller of the graph *)
(* ===================================================================== *)

(** [msg.content] *)
Definition content_of (msg : BaseMessage) : string :=
  match msg with
  | HumanMessage content => content
  | AIMessage content => content
  | SystemMessage content => content
  end.

(** The state [run_analysis] returns when the run raised [e], with [msg]
    for [str(e)]: the initial state with [error] set and no message. *)
Definition failed_state (user_query msg : string) : AgentState :=
  {| messages := []; user_query := user_query; analysis_type := None;
     sql_query := None; query_results := None; insights := None;
     error := Some ("Agent execution error: " ++ msg);
     retry_count := 0%Z; schema_context := None |}.

(** [run_analysis].  [recursion_error] is the text of the engine's own
    exception at the recursion limit. *)
Definition run_analysis (env : Env) (limit : nat) (recursion_error : string)
    (user_query : string) : M AgentState :=
  (outcome <- graph_invoke env limit (initial_state user_query) ;;
   ret match outcome with
       | Finished final_state => final_state
       | Raised msg => failed_state user_query msg
       | RecursionLimit => failed_state user_query recursion_error
       end)%M.

(** [get_response_from_state]: every message has a [content], so the loop
    over the reversed list returns at the last message. *)
Definition get_response_from_state (state : AgentState) : string :=
  match rev (messages state) with
  | msg :: _ => content_of msg
  | [] =>
      if truthy (error state)
      then "An error occurred: " ++ str_of (error state)
      else "I couldn't process your request. Please try again."
  end.

(* ===================================================================== *)
(** ** tools/bigquery_tools.py: the module-level client *)
(* ===================================================================== *)

(** [initialize_bigquery_client], on the global [_bq_client]: [construct]
    is the constructor [BigQueryRunner(project_id, dataset_id)], which may
    raise.  The result is what the call returns and the new global. *)
Definition initialize_bigquery_client
    (construct : option string -> string -> Result BigQueryRunner)
    (project_id : option string) (dataset_id : string)
    (global : option BigQueryRunner)
  : Result BigQueryRunner * option BigQueryRunner :=
  match global with
  | None =>
      match construct project_id dataset_id with
      | Ok client => (Ok client, Some client)
      | Raise msg => (Raise msg, None)
      end
  | Some client => (Ok client, Some client)
  end.

(* ===================================================================== *)
(** ** llm/gemini_client.py *)
(* ===================================================================== *)

(** The argument of one [time.sleep]: a whole number of seconds, or the
    literal 0.5. *)
Inductive Sleep : Type :=
| Seconds (n : Z)
| HalfSecond.

(** What [invoke_with_retry] has done so far: how often the chat model was
    invoked and the sleeps taken, oldest first. *)
Record Clock : Type := {
  invoked : nat;
  slept : list Sleep
}.

Definition tick (c : Clock) : Clock :=
  {| invoked := S (invoked c); slept := slept c |}.

Definition sleep (d : Sleep) (c : Clock) : Clock :=
  {| invoked := invoked c; slept := (slept c ++ [d])%list |}.

(** The test for a rate-limit error, on the lower-cased message. *)
Definition is_rate_limit (error_msg : string) : bool :=
  Py.contains error_msg "rate limit" || Py.contains error_msg "quota"
  || Py.contains error_msg "429".

(** The [for attempt in range(attempts)] loop of [invoke_with_retry] with
    [remaining] rounds to go, and the [raise last_error] after it.  The chat
    model answers its [n]-th invocation with [client n]. *)
Fixpoint attempts_loop {R : Type} (client : nat -> Result R) (attempts : Z)
    (remaining : nat) (attempt : Z) (last_error : option string) (c : Clock)
  : Result R * Clock :=
  match remaining with
  | O =>
      (match last_error with
       | Some e => Raise e
       | None => Raise "exceptions must derive from BaseException"
       end, c)
  | S remaining' =>
      match client (invoked c) with
      | Ok response => (Ok response, tick c)
      | Raise e =>
          let error_msg := Py.lower e in
          let c' :=
            if is_rate_limit error_msg
            then sleep (Seconds (2 ^ attempt * 1)) (tick c)
            else if (attempt <? attempts - 1)%Z
                 then sleep HalfSecond (tick c)
                 else tick c in
          attempts_loop client attempts remaining' (attempt + 1)%Z (Some e) c'
      end
  end.

(** [GeminiClient.invoke_with_retry] *)
Definition invoke_with_retry {R : Type} (max_retries : Z)
    (client : nat -> Result R) (max_attempts : option Z) (c : Clock)
  : Result R * Clock :=
  let attempts :=
    match max_attempts with
    | Some n => if (n =? 0)%Z then max_retries else n
    | None => max_retries
    end in
  attempts_loop client attempts (Z.to_nat attempts) 0%Z None c.

(* ===================================================================== *)
(** ** Vocabulary of the further statements *)
(* ===================================================================== *)

(** The SQL texts a node hands to the warehouse. *)
Definition sent_to_warehouse (env : Env) (n : Node.t) (state : AgentState)
  : list string :=
  match n, sql_query state, _bq_client env with
  | Node.execute_query, Some ((String _ _) as q), Some _ => [q]
  | _, _, _ => []
  end.

(** How many warehouse calls a run may still make from node [n]. *)
Definition calls_left (n : Node.t) (state : AgentState) : nat :=
  match n with
  | Node.analyze_results | Node.respond => 0
  | _ => Z.to_nat (Z.max 1 (2 - retry_count state))
  end.

(** The results hold at least one row and one column. *)
Definition has_data (state : AgentState) : bool :=
  match query_results state with
  | Some df => negb (df_empty df)
  | None => false
  end.

(** What makes the text of [respond_node] non-empty. *)
Definition respond_nonempty (state : AgentState) : Prop :=
  truthy (error state) = true
  \/ exists s, insights state = Some s /\ (s <> "" \/ has_data state = true).

(** Every character of [w] is a blank. *)
Fixpoint all_space (w : string) : bool :=
  match w with
  | EmptyString => true
  | String c w' => Py.isspace c && all_space w'
  end.

(** The sum of the whole-second sleeps. *)
Fixpoint seconds_slept (l : list Sleep) : Z :=
  match l with
  | [] => 0
  | Seconds n :: l' => n + seconds_slept l'
  | HalfSecond :: l' => seconds_slept l'
  end.

(** The number of half-second sleeps. *)
Fixpoint half_seconds_slept (l : list Sleep) : nat :=
  match l with
  | [] => 0
  | Seconds _ :: l' => half_seconds_slept l'
  | HalfSecond :: l' => S (half_seconds_slept l')
  end.

(** A backend that fails on every call. *)
Definition backend_down (env : Env) : Prop :=
  forall tr messages, exists e, llm env tr messages = Raise e.

(* ===================================================================== *)
(** ** Further environments of the examples *)
(* ===================================================================== *)

(** A catalogue that knows the table users only. *)
Definition users_only_runner : BigQueryRunner :=
  {| execute_query := fun _ _ => Raise "unused";
     get_table_schema := fun _ table =>
       if String.eqb table "users"
       then Ok [{| f_name := "id"; f_type := "INTEGER";
                   f_description := None |}]
       else Raise "Not found" |}.

Definition users_only_env : Env :=
  {| llm := scripted_llm [];
     _bq_client := Some users_only_runner;
     INTENT_ANALYSIS_PROMPT := "Classify the request.";
     SQL_GENERATION_PROMPT := fun _ user_query _ => "SQL for " ++ user_query;
     INSIGHT_GENERATION_PROMPT := fun _ _ _ _ => "Insights";
     ERROR_RECOVERY_PROMPT := fun _ _ _ => "Recover";
     to_string := fun _ => "" |}.

(** The generation step is in recovery mode: the state carries an error
    text and a query text. *)
Definition recovery_mode (state : AgentState) : bool :=
  truthy (error state) && truthy (sql_query state).

(** The prompt of the generation step for the schema [sc]. *)
Definition generation_prompt (env : Env) (state : AgentState) (sc : Schema)
  : string :=
  if recovery_mode state
  then ERROR_RECOVERY_PROMPT env (str_of (error state))
         (str_of (sql_query state)) (user_query state)
  else SQL_GENERATION_PROMPT env (get_schema_context_string sc)
         (user_query state) (str_of (analysis_type state)).

(** The prompt of the intent step. *)
Definition intent_prompt (env : Env) (state : AgentState) : string :=
  INTENT_ANALYSIS_PROMPT env ++ Py.nl ++ Py.nl
  ++ "User Query: " ++ user_query state.

(** The backend answers the intent request with a padded name in
    capitals. *)
Definition shouting_env : Env :=
  scripted_env [Ok "  Sales_Trends
"] [].

(** The prompt of the analysis step for the results [df]. *)
Definition insight_prompt (env : Env) (state : AgentState) (df : DataFrame)
  : string :=
  INSIGHT_GENERATION_PROMPT env (user_query state)
    (str_of (analysis_type state)) (str_of (sql_query state))
    (format_dataframe_for_prompt env df 20).

(** The line [respond_node] puts under a result with data. *)
Definition data_summary (df : DataFrame) : string :=
  Py.nl ++ Py.nl ++ "---" ++ Py.nl ++ "Data Summary: "
  ++ Py.str_of_nat (df_len df) ++ " rows analyzed".

(** A run of five steps: every call is answered at once. *)
Definition five_step_env : Env :=
  scripted_env [Ok "general_query"; Ok "SELECT 1"; Ok "Three rows."]
               [Ok three_rows].

(** A warehouse that fails once. *)
Definition failing_env : Env := scripted_env [] [Raise "Syntax error"].

(** A state with a query to run, as the generation step leaves it. *)
Definition query_state (retry_count : Z) : AgentState :=
  apply_update (probe_state None retry_count None)
    (with_sql_query (Some "SELECT 1") no_update).

(** An environment whose warehouse client was never initialised. *)
Definition no_client_env : Env :=
  {| llm := scripted_llm [Ok "SELECT 1"];
     _bq_client := None;
     INTENT_ANALYSIS_PROMPT := "Classify the request.";
     SQL_GENERATION_PROMPT := fun _ user_query _ => "SQL for " ++ user_query;
     INSIGHT_GENERATION_PROMPT := fun _ _ _ _ => "Insights";
     ERROR_RECOVERY_PROMPT := fun _ _ _ => "Recover";
     to_string := fun _ => "" |}.

(** The number of rounds of [invoke_with_retry]: [max_attempts], unless it
    is [None] or 0, and [max_retries] then. *)
Definition effective_attempts (max_retries : Z) (max_attempts : option Z)
  : nat :=
  match max_attempts with
  | Some n => if (n =? 0)%Z then Z.to_nat max_retries else Z.to_nat n
  | None => Z.to_nat max_retries
  end.

(** A chat model that is rate-limited twice and then answers. *)
Definition limited_twice (n : nat) : Result string :=
  match n with
  | 0 => Raise "429 Too Many Requests"
  | 1 => Raise "Rate limit exceeded"
  | _ => Ok "SELECT 1"
  end.

(** A chat model that is always rate-limited, and one that is always
    down. *)
Definition always_limited (n : nat) : Result string := Raise "Quota exceeded".

Definition always_down (n : nat) : Result string := Raise "Connection reset".

Definition fresh_clock : Clock := {| invoked := 0; slept := [] |}.


(* ===================================================================== *)
(** ** Facts about Python strings *)
(* ===================================================================== *)

(** Split a conjunction into its parts. *)
Ltac conjs := repeat match goal with |- _ /\ _ => split end.

(** A fact about one character is settled on the 256 of them. *)
Ltac each_char c :=
  destruct c as [[|] [|] [|] [|] [|] [|] [|] [|]]; vm_compute;
  try reflexivity; try discriminate; auto.

Section StringFacts.

Lemma isspace_lower_char (c : ascii) :
  Py.isspace (Py.lower_char c) = Py.isspace c.
Proof. each_char c. Qed.

Lemma lower_char_idem (c : ascii) :
  Py.lower_char (Py.lower_char c) = Py.lower_char c.
Proof. each_char c. Qed.

Lemma lower_char_lparen (c : ascii) :
  Ascii.eqb (Py.lower_char c) "("%char = Ascii.eqb c "("%char.
Proof. each_char c. Qed.

Lemma lower_char_rparen (c : ascii) :
  Ascii.eqb (Py.lower_char c) ")"%char = Ascii.eqb c ")"%char.
Proof. each_char c. Qed.

Lemma isspace_not_lparen (c : ascii) :
  Py.isspace c = true -> Ascii.eqb c "("%char = false.
Proof. each_char c. Qed.

Lemma isspace_not_rparen (c : ascii) :
  Py.isspace c = true -> Ascii.eqb c ")"%char = false.
Proof. each_char c. Qed.

Lemma append_nil_r (s : string) : s ++ "" = s.
Proof. induction s as [|c s IH]; simpl; [reflexivity | now rewrite IH]. Qed.

Lemma append_assoc (a b c : string) : (a ++ b) ++ c = a ++ (b ++ c).
Proof. induction a as [|x a IH]; simpl; [reflexivity | now rewrite IH]. Qed.

Lemma nonempty_false (s : string) : Py.nonempty s = false -> s = "".
Proof. destruct s; simpl; [reflexivity | discriminate]. Qed.

Lemma nonempty_app_char (s : string) (c : ascii) :
  Py.nonempty (s ++ String c "") = true.
Proof. destruct s; reflexivity. Qed.

Lemma lower_app (a b : string) :
  Py.lower (a ++ b) = Py.lower a ++ Py.lower b.
Proof. induction a as [|x a IH]; simpl; [reflexivity | now rewrite IH]. Qed.

Lemma lower_idem (s : string) : Py.lower (Py.lower s) = Py.lower s.
Proof.
  induction s as [|c s IH]; simpl; [reflexivity|].
  now rewrite lower_char_idem, IH.
Qed.

Lemma nonempty_lower (s : string) :
  Py.nonempty (Py.lower s) = Py.nonempty s.
Proof. destruct s; reflexivity. Qed.

(** *** startswith and contains *)

Lemma startswith_iff (s p : string) :
  Py.startswith s p = true <-> exists rest, s = p ++ rest.
Proof.
  revert s; induction p as [|a p IH]; intros s.
  - split; [intros _; now exists s | now destruct s].
  - destruct s as [|b s]; cbn [Py.startswith].
    + split; [discriminate | intros [rest H]; discriminate].
    + rewrite andb_true_iff, Ascii.eqb_eq, IH. split.
      * intros [-> [rest ->]]. now exists rest.
      * intros [rest H]. injection H as -> ->. split; [reflexivity|].
        now exists rest.
Qed.

Lemma startswith_app (p rest : string) : Py.startswith (p ++ rest) p = true.
Proof. apply startswith_iff. now exists rest. Qed.

Lemma contains_iff (s sub : string) :
  Py.contains s sub = true <-> exists pre post, s = pre ++ sub ++ post.
Proof.
  induction s as [|c s IH].
  - cbn [Py.contains]. rewrite orb_false_r, startswith_iff. split.
    + intros [rest H]. now exists "", rest.
    + intros [[|x pre] [post H]]; [now exists post | discriminate].
  - cbn [Py.contains]. rewrite orb_true_iff, startswith_iff, IH. split.
    + intros [[rest H] | [pre [post H]]].
      * now exists "", rest.
      * exists (String c pre), post. simpl. now rewrite H.
    + intros [[|x pre] [post H]].
      * left. now exists post.
      * right. simpl in H. injection H as _ H. now exists pre, post.
Qed.

(** *** strip *)

Lemma lstrip_suffix (s : string) : exists w, s = w ++ Py.lstrip s.
Proof.
  induction s as [|c s [w IH]]; simpl.
  - now exists "".
  - destruct (Py.isspace c).
    + exists (String c w). simpl. now rewrite <- IH.
    + now exists "".
Qed.

Lemma rstrip_prefix (s : string) : exists w, s = Py.rstrip s ++ w.
Proof.
  induction s as [|c s [w IH]]; simpl.
  - now exists "".
  - destruct (Py.isspace c && negb (Py.nonempty (Py.rstrip s))).
    + now exists (String c s).
    + exists w. simpl. now rewrite <- IH.
Qed.

Lemma strip_infix (s : string) : exists pre post, s = pre ++ Py.strip s ++ post.
Proof.
  unfold Py.strip.
  destruct (rstrip_prefix s) as [post Hr].
  destruct (lstrip_suffix (Py.rstrip s)) as [pre Hl].
  exists pre, post. rewrite <- append_assoc, <- Hl. exact Hr.
Qed.

Lemma rstrip_app_char (s : string) (c : ascii) :
  Py.isspace c = false -> Py.rstrip (s ++ String c "") = s ++ String c "".
Proof.
  intros Hc. induction s as [|a s IH]; simpl.
  - now rewrite Hc.
  - rewrite IH, nonempty_app_char, andb_false_r. reflexivity.
Qed.

Lemma rstrip_app_space (s : string) (c : ascii) :
  Py.isspace c = true -> Py.rstrip (s ++ String c "") = Py.rstrip s.
Proof.
  intros Hc. induction s as [|a s IH]; simpl.
  - now rewrite Hc.
  - now rewrite IH.
Qed.

Lemma lstrip_rstrip_cons_space (s : string) (c : ascii) :
  Py.isspace c = true -> Py.strip (String c s) = Py.strip s.
Proof.
  intros Hc. unfold Py.strip. simpl. rewrite Hc. simpl.
  destruct (Py.nonempty (Py.rstrip s)) eqn:E; simpl.
  - now rewrite Hc.
  - now rewrite (nonempty_false _ E).
Qed.

Lemma strip_app_space (s : string) (c : ascii) :
  Py.isspace c = true -> Py.strip (s ++ String c "") = Py.strip s.
Proof. intros Hc. unfold Py.strip. now rewrite rstrip_app_space. Qed.

(** *** count *)

Lemma count_lower_lparen (s : string) :
  Py.count (Py.lower s) "("%char = Py.count s "("%char.
Proof.
  induction s as [|c s IH]; simpl; [reflexivity|].
  now rewrite lower_char_lparen, IH.
Qed.

Lemma count_lower_rparen (s : string) :
  Py.count (Py.lower s) ")"%char = Py.count s ")"%char.
Proof.
  induction s as [|c s IH]; simpl; [reflexivity|].
  now rewrite lower_char_rparen, IH.
Qed.

Lemma count_blank (s : string) (p : ascii) :
  (forall c, Py.isspace c = true -> Ascii.eqb c p = false) ->
  Py.rstrip s = "" -> Py.count s p = 0.
Proof.
  intros Hp. induction s as [|c s IH]; simpl; [reflexivity|].
  destruct (Py.isspace c) eqn:Hc; simpl.
  - destruct (Py.nonempty (Py.rstrip s)) eqn:E; simpl; [discriminate|].
    intros _. rewrite (Hp c Hc). apply IH. now apply nonempty_false.
  - discriminate.
Qed.

Lemma count_strip (s : string) (p : ascii) :
  (forall c, Py.isspace c = true -> Ascii.eqb c p = false) ->
  Py.count (Py.strip s) p = Py.count s p.
Proof.
  intros Hp. unfold Py.strip.
  assert (Hl : forall t, Py.count (Py.lstrip t) p = Py.count t p).
  { induction t as [|c t IH]; simpl; [reflexivity|].
    destruct (Py.isspace c) eqn:Hc; [|reflexivity].
    now rewrite IH, (Hp c Hc). }
  rewrite Hl. induction s as [|c s IH]; simpl; [reflexivity|].
  destruct (Py.isspace c) eqn:Hc; simpl.
  - destruct (Py.nonempty (Py.rstrip s)) eqn:E; simpl.
    + now rewrite IH.
    + rewrite (Hp c Hc). simpl. symmetry. apply count_blank; [exact Hp|].
      now apply nonempty_false.
  - now rewrite IH.
Qed.

(** *** split *)

Lemma split_from_lower (cur s : string) :
  Py.split_from (Py.lower cur) (Py.lower s)
  = map Py.lower (Py.split_from cur s).
Proof.
  revert cur; induction s as [|c s IH]; intros cur; simpl.
  - rewrite nonempty_lower. now destruct (Py.nonempty cur).
  - rewrite isspace_lower_char, nonempty_lower.
    destruct (Py.isspace c).
    + change EmptyString with (Py.lower EmptyString) at 1 2.
      rewrite IH. now destruct (Py.nonempty cur).
    + rewrite <- IH, lower_app. reflexivity.
Qed.

Lemma split_from_lstrip (s : string) :
  Py.split_from "" (Py.lstrip s) = Py.split_from "" s.
Proof.
  induction s as [|c s IH]; simpl; [reflexivity|].
  destruct (Py.isspace c) eqn:Hc; [exact IH|].
  simpl. now rewrite Hc.
Qed.

Lemma split_from_rstrip (cur s : string) :
  Py.split_from cur (Py.rstrip s) = Py.split_from cur s.
Proof.
  revert cur; induction s as [|c s IH]; intros cur; simpl; [reflexivity|].
  destruct (Py.isspace c) eqn:Hc; simpl.
  - destruct (Py.nonempty (Py.rstrip s)) eqn:E; simpl.
    + now rewrite Hc, IH.
    + rewrite <- (IH ""), (nonempty_false _ E). simpl.
      now destruct (Py.nonempty cur).
  - now rewrite Hc, IH.
Qed.

Lemma split_strip (s : string) : Py.split (Py.strip s) = Py.split s.
Proof.
  unfold Py.split, Py.strip.
  now rewrite split_from_lstrip, split_from_rstrip.
Qed.

Lemma split_lower (s : string) :
  Py.split (Py.lower s) = map Py.lower (Py.split s).
Proof. unfold Py.split. apply (split_from_lower "" s). Qed.

(** *** split gives the whitespace-delimited tokens *)

Lemma nonempty_true (s : string) : s <> "" -> Py.nonempty s = true.
Proof. destruct s; [intros H; now elim H | reflexivity]. Qed.

Lemma split_from_run (t : string) :
  forall cur post,
    no_space t = true -> blank_ahead post -> cur ++ t <> "" ->
    In (cur ++ t) (Py.split_from cur (t ++ post)).
Proof.
  induction t as [|a t IH]; intros cur post Ht Hpost Hne.
  - rewrite append_nil_r in *. apply nonempty_true in Hne.
    cbn [append]. destruct Hpost as [-> | (c & post' & -> & Hc)];
      cbn [Py.split_from]; rewrite ?Hc, Hne; now left.
  - cbn [no_space] in Ht. apply andb_true_iff in Ht. destruct Ht as [Ha Ht].
    apply negb_true_iff in Ha. cbn [append Py.split_from]. rewrite Ha.
    replace (cur ++ String a t) with ((cur ++ String a "") ++ t)
      by now rewrite append_assoc.
    apply IH; [assumption.. |].
    rewrite append_assoc. cbn [append]. now destruct cur.
Qed.

Lemma split_from_skip (pre : string) (c : ascii) (rest t : string) :
  Py.isspace c = true -> In t (Py.split_from "" rest) ->
  forall cur, In t (Py.split_from cur ((pre ++ String c "") ++ rest)).
Proof.
  intros Hc Hin. induction pre as [|a pre IH]; intros cur.
  - cbn [append Py.split_from]. rewrite Hc.
    destruct (Py.nonempty cur); [now right | assumption].
  - cbn [append Py.split_from].
    destruct (Py.isspace a); [|apply IH].
    destruct (Py.nonempty cur); [right|]; apply IH.
Qed.

Lemma split_complete (t s : string) : token_of t s -> In t (Py.split s).
Proof.
  intros (Hne & Ht & pre & post & -> & Hpre & Hpost). unfold Py.split.
  assert (R : In t (Py.split_from "" (t ++ post)))
    by (apply (split_from_run t "" post); assumption).
  destruct Hpre as [-> | (pre' & c & -> & Hc)]; [exact R|].
  now apply split_from_skip.
Qed.

Lemma split_from_sound (s : string) :
  forall cur t,
    In t (Py.split_from cur s) ->
    (exists t' post, s = t' ++ post /\ t = cur ++ t' /\ no_space t' = true
                     /\ blank_ahead post /\ t <> "")
    \/ (exists pre post, s = pre ++ t ++ post /\ blank_last pre
                         /\ no_space t = true /\ t <> ""
                         /\ blank_ahead post).
Proof.
  induction s as [|c s IH]; intros cur t Hin.
  - cbn [Py.split_from] in Hin. destruct cur as [|x cur]; [now elim Hin|].
    destruct Hin as [<- | []]. left. exists "", "".
    rewrite !append_nil_r. conjs; try reflexivity; [now left | discriminate].
  - cbn [Py.split_from] in Hin. destruct (Py.isspace c) eqn:Hc.
    + assert (Hin' : (t = cur /\ cur <> "")
                     \/ In t (Py.split_from "" s)).
      { destruct cur as [|x cur]; [now right|].
        destruct Hin as [<- | Hin]; [left; split; [reflexivity|discriminate]
                                    | now right]. }
      destruct Hin' as [[-> Hne] | Hin'].
      * left. exists "", (String c s). rewrite !append_nil_r.
        conjs; try reflexivity; [|assumption]. right. now exists c, s.
      * right. destruct (IH _ _ Hin')
          as [(t' & post & -> & -> & Ht & Hpost & Hne)
             | (pre & post & -> & (pre' & d & -> & Hd) & Ht & Hne & Hpost)].
        -- exists (String c ""), post. cbn [append] in *.
           conjs; try reflexivity; try assumption. now exists "", c.
        -- exists (String c (pre' ++ String d "")), post.
           conjs; try reflexivity; try assumption.
           now exists (String c pre'), d.
    + destruct (IH _ _ Hin)
        as [(t' & post & -> & -> & Ht & Hpost & Hne)
           | (pre & post & -> & (pre' & d & -> & Hd) & Ht & Hne & Hpost)].
      * left. exists (String c t'), post.
        rewrite append_assoc in *. cbn [append] in *.
        conjs; try reflexivity; try assumption.
        cbn [no_space]. now rewrite Hc.
      * right. exists (String c (pre' ++ String d "")), post.
        conjs; try reflexivity; try assumption.
        now exists (String c pre'), d.
Qed.

Lemma split_sound (t s : string) : In t (Py.split s) -> token_of t s.
Proof.
  intros Hin. destruct (split_from_sound _ _ _ Hin)
    as [(t' & post & -> & -> & Ht & Hpost & Hne)
       | (pre & post & -> & Hpre & Ht & Hne & Hpost)].
  - cbn [append] in *. unfold token_of. conjs; try assumption.
    exists "", post. conjs; try reflexivity; [now left | assumption].
  - unfold token_of. conjs; try assumption.
    exists pre, post. conjs; try reflexivity; [now right | assumption].
Qed.

(** [s.split()] lists exactly the whitespace-delimited tokens of [s]. *)
Lemma split_tokens (t s : string) : In t (Py.split s) <-> token_of t s.
Proof. split; [apply split_sound | apply split_complete]. Qed.

Lemma mem_iff (x : string) (l : list string) : Py.mem x l = true <-> In x l.
Proof.
  unfold Py.mem. rewrite existsb_exists. split.
  - intros [y [Hy E]]. apply String.eqb_eq in E. now subst.
  - intros H. exists x. split; [exact H | apply String.eqb_refl].
Qed.

End StringFacts.

(* ===================================================================== *)
(** ** The SQL safety validator *)
(* ===================================================================== *)

Section Validator.

Lemma tokens_of_sql_lower (s : string) :
  Py.split (Py.strip (Py.lower s)) = map Py.lower (Py.split s).
Proof. now rewrite split_strip, split_lower. Qed.

Lemma parens_of_sql_lower (s : string) :
  Py.count (Py.strip (Py.lower s)) "("%char = Py.count s "("%char
  /\ Py.count (Py.strip (Py.lower s)) ")"%char = Py.count s ")"%char.
Proof.
  rewrite (count_strip _ _ isspace_not_lparen).
  rewrite (count_strip _ _ isspace_not_rparen).
  now rewrite count_lower_lparen, count_lower_rparen.
Qed.

(** The verdict carries a reason exactly when it rejects. *)
Lemma validate_flag_reason (s : string) :
  fst (validate_sql_query s) = false
  <-> exists reason, snd (validate_sql_query s) = Some reason.
Proof.
  unfold validate_sql_query.
  destruct (find _ dangerous_keywords); cbn [fst snd].
  - split; [intros _; eauto | reflexivity].
  - destruct (negb (Py.startswith _ "select")); cbn [fst snd].
    + split; [intros _; eauto | reflexivity].
    + destruct (negb (_ =? _)%nat); cbn [fst snd].
      * split; [intros _; eauto | reflexivity].
      * split; [discriminate | intros [r H]; discriminate].
Qed.

Lemma validate_dangerous_token (s t : string) :
  token_of t s -> In (Py.lower t) dangerous_keywords ->
  exists k t', In k dangerous_keywords
               /\ token_of t' s /\ Py.lower t' = k
               /\ validate_sql_query s = (false, Some (dangerous_reason k)).
Proof.
  intros Ht Hk. apply split_tokens in Ht. unfold validate_sql_query.
  rewrite tokens_of_sql_lower.
  destruct (find _ dangerous_keywords) as [k|] eqn:F.
  - apply find_some in F. destruct F as [Hin Hmem].
    apply mem_iff, in_map_iff in Hmem. destruct Hmem as (t' & Hl & Ht').
    exists k, t'. conjs; [exact Hin | now apply split_tokens | exact Hl
                         | reflexivity].
  - exfalso. pose proof (find_none _ _ F _ Hk) as Hn. cbv beta in Hn.
    assert (Py.mem (Py.lower t) (map Py.lower (Py.split s)) = true) as E
      by (apply mem_iff; now apply in_map).
    congruence.
Qed.

Lemma validate_not_select (s : string) :
  ~ begins_with (Py.strip (Py.lower s)) "select" ->
  fst (validate_sql_query s) = false.
Proof.
  intros H. unfold validate_sql_query.
  destruct (find _ dangerous_keywords); [reflexivity|].
  destruct (Py.startswith (Py.strip (Py.lower s)) "select") eqn:E.
  - exfalso. apply H. now apply startswith_iff.
  - reflexivity.
Qed.

Lemma validate_unbalanced (s : string) :
  Py.count s "("%char <> Py.count s ")"%char ->
  fst (validate_sql_query s) = false.
Proof.
  intros H. unfold validate_sql_query.
  destruct (find _ dangerous_keywords); [reflexivity|].
  destruct (negb (Py.startswith _ _)); [reflexivity|].
  destruct (parens_of_sql_lower s) as [-> ->].
  apply Nat.eqb_neq in H. now rewrite H.
Qed.

(** C7.  The safety validator is a total function from a string to a flag
    and an optional reason, the reason being there exactly on rejection.  A
    statement one of whose whitespace-delimited tokens is, lower-cased, one
    of drop, delete, truncate, insert, update, alter, create is rejected
    with the reason naming such a keyword of the statement; a statement
    whose trimmed lower-cased text does not begin with select is rejected; a
    statement with different numbers of "(" and ")" is rejected; and
    "SELECT * FROM t" is accepted. *)
Theorem validate_sql_query_spec (s : string) :
  (fst (validate_sql_query s) = false
   <-> exists reason, snd (validate_sql_query s) = Some reason)
  /\ (forall t, token_of t s -> In (Py.lower t) dangerous_keywords ->
      exists k t', In k dangerous_keywords
                   /\ token_of t' s /\ Py.lower t' = k
                   /\ validate_sql_query s
                      = (false, Some (dangerous_reason k)))
  /\ (~ begins_with (Py.strip (Py.lower s)) "select" ->
      fst (validate_sql_query s) = false)
  /\ (Py.count s "("%char <> Py.count s ")"%char ->
      fst (validate_sql_query s) = false)
  /\ validate_sql_query "SELECT * FROM t" = (true, None).
Proof.
  split; [apply validate_flag_reason|].
  split; [apply validate_dangerous_token|].
  split; [apply validate_not_select|].
  split; [apply validate_unbalanced | reflexivity].
Qed.

(** The three rejections of C7 at "DROP TABLE t", "SHOW TABLES" and
    "SELECT * FROM t WHERE (a=1". *)
Lemma validate_sql_query_spec_witness :
  (exists k t', In k dangerous_keywords
                /\ token_of t' "DROP TABLE t" /\ Py.lower t' = k
                /\ validate_sql_query "DROP TABLE t"
                   = (false, Some (dangerous_reason k)))
  /\ fst (validate_sql_query "SHOW TABLES") = false
  /\ fst (validate_sql_query "SELECT * FROM t WHERE (a=1") = false.
Proof.
  split; [|split].
  - destruct (validate_sql_query_spec "DROP TABLE t") as (_ & H & _).
    apply (H "DROP").
    + apply split_tokens. vm_compute. now left.
    + vm_compute. now left.
  - destruct (validate_sql_query_spec "SHOW TABLES") as (_ & _ & H & _).
    apply H. intros [rest E]. vm_compute in E. discriminate.
  - destruct (validate_sql_query_spec "SELECT * FROM t WHERE (a=1")
      as (_ & _ & _ & H & _).
    apply H. vm_compute. discriminate.
Defined.

End Validator.

(* ===================================================================== *)
(** ** The retry policy and the routing after execution *)
(* ===================================================================== *)

Section Routing.

Lemma truthy_iff (o : option string) :
  truthy o = true <-> exists e, o = Some e /\ e <> "".
Proof.
  destruct o as [[|c e]|]; simpl.
  - split; [discriminate | intros (e & [= <-] & H); now elim H].
  - split; [intros _; eexists; split; [reflexivity | discriminate]
           | reflexivity].
  - split; [discriminate | intros (e & H & _); discriminate].
Qed.

Lemma lower_split (e a b : string) :
  Py.lower e = a ++ b ->
  exists x y, e = x ++ y /\ Py.lower x = a /\ Py.lower y = b.
Proof.
  revert e; induction a as [|c a IH]; intros e H.
  - now exists "", e.
  - destruct e as [|d e]; [discriminate|].
    simpl in H. injection H as Hc H.
    destruct (IH e H) as (x & y & -> & Hx & Hy).
    exists (String d x), y. simpl. now rewrite Hc, Hx.
Qed.

(** [term in error.lower()] finds [term] in any mix of cases. *)
Lemma contains_lower_iff (e term : string) :
  Py.contains (Py.lower e) term = true <-> occurs_in_any_case term e.
Proof.
  rewrite contains_iff. split.
  - intros (pre & post & H).
    destruct (lower_split _ _ _ H) as (x & r & -> & Hx & Hr).
    destruct (lower_split _ _ _ Hr) as (v & y & -> & Hv & Hy).
    now exists x, v, y.
  - intros (pre & v & post & -> & Hv).
    exists (Py.lower pre), (Py.lower post).
    now rewrite !lower_app, Hv.
Qed.

Lemma should_retry_query_iff (state : AgentState) :
  should_retry_query state = true
  <-> exists e, error state = Some e /\ e <> ""
                /\ (retry_count state < 2)%Z
                /\ forall term, In term non_retryable ->
                                ~ occurs_in_any_case term e.
Proof.
  unfold should_retry_query. split.
  - destruct (truthy (error state)) eqn:T; [|discriminate].
    apply truthy_iff in T. destruct T as (e & He & Hne).
    destruct (retry_count state <? 2)%Z eqn:L; [|discriminate].
    rewrite He. cbn [andb str_of].
    destruct (existsb _ non_retryable) eqn:X; [discriminate|]. intros _.
    exists e. repeat split; [assumption.. | now apply Z.ltb_lt |].
    intros term Hin Hocc. apply contains_lower_iff in Hocc.
    assert (Y : existsb (fun t => Py.contains (Py.lower e) t) non_retryable
                = true) by (apply existsb_exists; now exists term).
    congruence.
  - intros (e & He & Hne & Hlt & Hno).
    assert (T : truthy (error state) = true)
      by (apply truthy_iff; now exists e).
    apply Z.ltb_lt in Hlt. rewrite T, Hlt, He. cbn [andb str_of].
    destruct (existsb _ non_retryable) eqn:X; [|reflexivity].
    apply existsb_exists in X. destruct X as (term & Hin & Hc).
    elim (Hno term Hin). now apply contains_lower_iff.
Qed.

(** C2, as the code has it.  The retry decision depends on [error] and
    [retry_count] only.  It permits a retry exactly when [error] holds a
    non-empty text, [retry_count] is below 2 and the text contains, in any
    mix of cases, none of permission, authentication, credentials, quota; a
    text that contains one of them denies the retry whatever the count. *)
Theorem should_retry_query_spec (state : AgentState) :
  (forall other, error other = error state ->
                 retry_count other = retry_count state ->
                 should_retry_query other = should_retry_query state)
  /\ (should_retry_query state = true
      <-> exists e, error state = Some e /\ e <> ""
                    /\ (retry_count state < 2)%Z
                    /\ forall term, In term non_retryable ->
                                    ~ occurs_in_any_case term e)
  /\ (forall e term, error state = Some e -> In term non_retryable ->
                     occurs_in_any_case term e ->
                     should_retry_query state = false).
Proof.
  split; [|split].
  - intros other He Hc. unfold should_retry_query. now rewrite He, Hc.
  - apply should_retry_query_iff.
  - intros e term He Hin Hocc.
    destruct (should_retry_query state) eqn:R; [|reflexivity].
    apply should_retry_query_iff in R.
    destruct R as (e' & He' & _ & _ & Hno).
    rewrite He in He'. injection He' as <-. now elim (Hno term Hin).
Qed.

(** C2 on the states of the unit tests: "SQL syntax error" at count 0 is
    retried, and "Permission DENIED" is not, even at count -5. *)
Lemma should_retry_query_spec_witness :
  should_retry_query (probe_state (Some "SQL syntax error") 0 None) = true
  /\ should_retry_query (probe_state (Some "Permission DENIED") (-5) None)
     = false.
Proof.
  split.
  - apply (should_retry_query_spec
             (probe_state (Some "SQL syntax error") 0 None)).
    exists "SQL syntax error".
    split; [reflexivity|]. split; [discriminate|]. split; [reflexivity|].
    intros term Hin Hocc. apply contains_lower_iff in Hocc.
    repeat (destruct Hin as [<- | Hin]; [vm_compute in Hocc; discriminate|]).
    exact Hin.
  - apply (should_retry_query_spec
             (probe_state (Some "Permission DENIED") (-5) None))
      with (e := "Permission DENIED") (term := "permission").
    + reflexivity.
    + now left.
    + exists "", "Permission", " DENIED". split; reflexivity.
Defined.

(** C2 as stated fails on an empty error text: the text is present, the
    count is below 2 and no forbidden term occurs in it, yet the retry is
    denied. *)
Lemma should_retry_query_empty_error :
  retry_as_claimed (probe_state (Some "") 0 None)
  /\ should_retry_query (probe_state (Some "") 0 None) = false.
Proof.
  split; [|reflexivity].
  split; [discriminate|]. split; [reflexivity|].
  intros e term [= <-] Hin Hocc. apply contains_lower_iff in Hocc.
  simpl in Hin.
  repeat (destruct Hin as [<- | Hin]; [vm_compute in Hocc; discriminate|]).
  exact Hin.
Qed.

Lemma should_retry_error_set (state : AgentState) :
  should_retry_query state = true -> error_set state.
Proof.
  intros H. apply should_retry_query_iff in H.
  destruct H as (e & He & Hne & _). now exists e.
Qed.

Lemma route_unfold (state : AgentState) :
  route_after_execution state
  = if should_retry_query state then Node.generate_sql
    else match query_results state with
         | Some _ => Node.analyze_results
         | None => if truthy (error state) then Node.respond
                   else Node.analyze_results
         end.
Proof.
  unfold route_after_execution.
  destruct (should_retry_query state) eqn:R.
  - apply should_retry_error_set, truthy_iff in R. now rewrite R.
  - now rewrite andb_false_r.
Qed.

(** The routing function on an arbitrary state, with Python's truth test
    on [error]: the SQL-generation step when [error] holds a non-empty text
    and the retry is permitted; otherwise the analyze-results step when
    [query_results] is not absent; otherwise the respond step when [error]
    holds a non-empty text; otherwise the analyze-results step. *)
Theorem route_after_execution_spec (state : AgentState) :
  (error_set state /\ should_retry_query state = true ->
   route_after_execution state = Node.generate_sql)
  /\ (~ (error_set state /\ should_retry_query state = true) ->
      query_results state <> None ->
      route_after_execution state = Node.analyze_results)
  /\ (~ (error_set state /\ should_retry_query state = true) ->
      query_results state = None -> error_set state ->
      route_after_execution state = Node.respond)
  /\ (~ (error_set state /\ should_retry_query state = true) ->
      query_results state = None -> ~ error_set state ->
      route_after_execution state = Node.analyze_results).
Proof.
  rewrite route_unfold.
  assert (N : ~ (error_set state /\ should_retry_query state = true) ->
              should_retry_query state = false).
  { intros H. destruct (should_retry_query state) eqn:R; [|reflexivity].
    elim H. split; [now apply should_retry_error_set | reflexivity]. }
  repeat split.
  - intros [_ ->]. reflexivity.
  - intros H Hr. rewrite (N H). now destruct (query_results state).
  - intros H Hr He. rewrite (N H), Hr.
    now rewrite (proj2 (truthy_iff _) He).
  - intros H Hr He. rewrite (N H), Hr.
    destruct (truthy (error state)) eqn:T; [|reflexivity].
    elim He. now apply truthy_iff.
Qed.

(** The four branches of the routing function, each on a state of its
    own. *)
Lemma route_after_execution_spec_witness :
  route_after_execution (probe_state (Some "SQL syntax error") 0 None)
  = Node.generate_sql
  /\ route_after_execution (probe_state None 0 (Some three_rows))
     = Node.analyze_results
  /\ route_after_execution (probe_state (Some "SQL syntax error") 2 None)
     = Node.respond
  /\ route_after_execution (probe_state None 0 None) = Node.analyze_results.
Proof.
  assert (E : forall e n r, e <> "" -> error_set (probe_state (Some e) n r))
    by (intros e n r H; now exists e).
  assert (F : forall n r, ~ error_set (probe_state None n r))
    by (intros n r (e & H & _); discriminate).
  split; [|split; [|split]].
  - destruct (route_after_execution_spec
                (probe_state (Some "SQL syntax error") 0 None)) as (H & _).
    apply H. split; [apply E; discriminate | reflexivity].
  - destruct (route_after_execution_spec
                (probe_state None 0 (Some three_rows))) as (_ & H & _).
    apply H.
    + intros [H' _]. now apply F in H'.
    + discriminate.
  - destruct (route_after_execution_spec
                (probe_state (Some "SQL syntax error") 2 None))
      as (_ & _ & H & _).
    apply H.
    + intros [_ H']. discriminate.
    + reflexivity.
    + apply E. discriminate.
  - destruct (route_after_execution_spec (probe_state None 0 None))
      as (_ & _ & _ & H).
    apply H.
    + intros [H' _]. now apply F in H'.
    + reflexivity.
    + apply F.
Defined.

(** On a hand-built state with an empty error text and no results the
    routing function and the stated order part: the text is present and
    false.  The execution step never leaves such a state. *)
Lemma route_after_execution_empty_error :
  route_as_claimed (probe_state (Some "") 0 None) = Node.respond
  /\ route_after_execution (probe_state (Some "") 0 None)
     = Node.analyze_results.
Proof. split; reflexivity. Qed.

(** Away from the empty error text, the code and the stated conditions
    agree. *)
Lemma retry_as_claimed_iff (state : AgentState) :
  error state <> Some "" ->
  (should_retry_query state = true <-> retry_as_claimed state).
Proof.
  intros Hne. rewrite should_retry_query_iff. unfold retry_as_claimed. split.
  - intros (e & He & _ & Hlt & Hno). conjs; [congruence | exact Hlt |].
    intros e' term He' Hin. rewrite He in He'. injection He' as <-.
    now apply Hno.
  - intros (Hp & Hlt & Hno). destruct (error state) as [e|] eqn:He;
      [|now elim Hp].
    exists e. conjs; [reflexivity | congruence | exact Hlt |].
    intros term Hin. now apply (Hno e term).
Qed.

Lemma route_as_claimed_eq (state : AgentState) :
  error state <> Some "" ->
  route_after_execution state = route_as_claimed state.
Proof.
  intros Hne. unfold route_after_execution, route_as_claimed.
  destruct (error state) as [[|c e]|]; [now elim Hne | reflexivity..].
Qed.

End Routing.

(* ===================================================================== *)
(** ** The execution and the analysis steps *)
(* ===================================================================== *)

Section Steps.

Variable env : Env.

(** C4.  The execute-query step: with [sql_query] absent it sets [error] to
    "No SQL query to execute" and [query_results] to absent, calls nothing
    and leaves [retry_count] out of its update; when the executor succeeds
    it stores the results, clears [error] and sets [retry_count] to 0; when
    the executor fails it clears [query_results], sets [error] to the
    executor's message (after the label "Query execution error: ") and sets
    [retry_count] to one more than it was. *)
Theorem execute_query_node_spec (state : AgentState) (tr : Trace) :
  (sql_query state = None ->
   execute_query_node env state tr = (no_query_update, tr)
   /\ u_retry_count no_query_update = None
   /\ retry_count (apply_update state no_query_update) = retry_count state)
  /\ (forall q df tr',
        sql_query state = Some q -> q <> "" ->
        execute_query_direct env q tr = (Ok df, tr') ->
        execute_query_node env state tr
        = (with_retry_count 0%Z
             (with_error None (with_query_results (Some df) no_update)),
           tr'))
  /\ (forall q msg tr',
        sql_query state = Some q -> q <> "" ->
        execute_query_direct env q tr = (Raise msg, tr') ->
        execute_query_node env state tr
        = (with_retry_count (retry_count state + 1)%Z
             (with_query_results None
                (with_error (Some ("Query execution error: " ++ msg))
                   no_update)),
           tr')).
Proof.
  unfold execute_query_node. split; [|split].
  - intros H. now rewrite H.
  - intros q df tr' Hq Hne Hx. rewrite Hq.
    destruct q as [|c q]; [now elim Hne|].
    unfold bind. now rewrite Hx.
  - intros q msg tr' Hq Hne Hx. rewrite Hq.
    destruct q as [|c q]; [now elim Hne|].
    unfold bind. now rewrite Hx.
Qed.

(** C10.  With [sql_query] present but empty the execute-query step does
    what it does with [sql_query] absent: the same update, which does not
    mention [retry_count], and no call to the executor. *)
Theorem execute_query_node_empty (state : AgentState) (tr : Trace) :
  sql_query state = Some "" ->
  execute_query_node env state tr = (no_query_update, tr)
  /\ u_error no_query_update = Some (Some "No SQL query to execute")
  /\ u_query_results no_query_update = Some None
  /\ u_retry_count no_query_update = None
  /\ executed (snd (execute_query_node env state tr)) = executed tr.
Proof.
  intros H. unfold execute_query_node. rewrite H. now repeat split.
Qed.

(** C9.  With [query_results] absent or without rows the analyze-results
    step returns the fixed insight, sets [error] to absent and calls
    nothing. *)
Theorem analyze_results_node_no_data (state : AgentState) (tr : Trace) :
  query_results state = None
  \/ (exists df, query_results state = Some df /\ rows df = []) ->
  analyze_results_node env state tr
  = (with_error None (with_insights (Some no_data_insight) no_update), tr)
  /\ error (apply_update state
              (fst (analyze_results_node env state tr))) = None.
Proof.
  intros [H | (df & H & Hr)]; unfold analyze_results_node; rewrite H.
  - now split.
  - unfold df_empty. rewrite Hr. cbn [List.length Nat.eqb].
    rewrite orb_true_r. now split.
Qed.

End Steps.

(** C4 on a warehouse that answers and on one that fails. *)
Lemma execute_query_node_spec_witness :
  execute_query_node drop_env (probe_state None 0 None) []
  = (no_query_update, [])
  /\ fst (execute_query_node (scripted_env [] [Ok three_rows])
            (apply_update (probe_state None 1 None)
               (with_sql_query (Some "SELECT 1") no_update)) [])
     = with_retry_count 0%Z
         (with_error None (with_query_results (Some three_rows) no_update))
  /\ fst (execute_query_node (scripted_env [] [Raise "Syntax error"])
            (apply_update (probe_state None 1 None)
               (with_sql_query (Some "SELECT 1") no_update)) [])
     = with_retry_count 2%Z
         (with_query_results None
            (with_error (Some "Query execution error: Syntax error")
               no_update)).
Proof.
  split; [|split].
  - apply (execute_query_node_spec drop_env (probe_state None 0 None) []).
    reflexivity.
  - destruct (execute_query_node_spec (scripted_env [] [Ok three_rows])
                (apply_update (probe_state None 1 None)
                   (with_sql_query (Some "SELECT 1") no_update)) [])
      as (_ & H & _).
    rewrite (H "SELECT 1" three_rows [ExecuteQuery "SELECT 1"]);
      [reflexivity | reflexivity | discriminate | reflexivity].
  - destruct (execute_query_node_spec (scripted_env [] [Raise "Syntax error"])
                (apply_update (probe_state None 1 None)
                   (with_sql_query (Some "SELECT 1") no_update)) [])
      as (_ & _ & H).
    rewrite (H "SELECT 1" "Syntax error" [ExecuteQuery "SELECT 1"]);
      [reflexivity | reflexivity | discriminate | reflexivity].
Defined.

(** C10 on a state whose query is the empty string. *)
Lemma execute_query_node_empty_witness :
  execute_query_node drop_env
    (apply_update (probe_state None 1 None)
       (with_sql_query (Some "") no_update)) []
  = (no_query_update, []).
Proof.
  apply (execute_query_node_empty drop_env). reflexivity.
Defined.

(** C9 on a frame with a column and no row. *)
Lemma analyze_results_node_no_data_witness :
  analyze_results_node drop_env
    (probe_state (Some "stale") 0 (Some {| columns := ["col"]; rows := [] |}))
    []
  = (with_error None (with_insights (Some no_data_insight) no_update), []).
Proof.
  apply (analyze_results_node_no_data drop_env).
  right. eexists. split; reflexivity.
Defined.

(* ===================================================================== *)
(** ** From SQL generation to execution *)
(* ===================================================================== *)

Section GenerateThenExecute.

Variable env : Env.

Lemma executed_app (tr tr' : Trace) :
  executed (tr ++ tr')%list = (executed tr ++ executed tr')%list.
Proof.
  induction tr as [|[m|q|t] tr IH]; simpl; [reflexivity | exact IH | | exact IH].
  now rewrite IH.
Qed.

Lemma schema_fetches_app (table : string) (tr tr' : Trace) :
  schema_fetches table (tr ++ tr')%list
  = schema_fetches table tr + schema_fetches table tr'.
Proof.
  unfold schema_fetches. now rewrite filter_app, length_app.
Qed.

(** A rejected answer stays in the update, next to the validator's reason. *)
Lemma generate_sql_node_rejected (state : AgentState) (tr tr1 : Trace)
    (u : Update) (sc : Schema) (content : string) :
  schema_context state = Some sc -> sc <> [] ->
  generate_sql_node env state tr = (u, tr1) ->
  (exists prompt, tr1 = (tr ++ [LlmInvoke [HumanMessage prompt]])%list
                  /\ llm env tr [HumanMessage prompt] = Ok content) ->
  fst (validate_sql_query (strip_code_fence content)) = false ->
  u = with_sql_query (Some (strip_code_fence content))
        (with_error
           (Some ("Invalid SQL: "
                  ++ str_of (snd (validate_sql_query
                                    (strip_code_fence content)))))
           no_update).
Proof.
  intros Hsc Hne Hg (prompt & -> & Hllm) Hv.
  unfold generate_sql_node in Hg. rewrite Hsc in Hg.
  destruct sc as [|x sc]; [now elim Hne|].
  unfold bind, ret, llm_invoke, call in Hg.
  injection Hg as Hu Htr.
  apply app_inv_head in Htr. injection Htr as Hp.
  rewrite Hp, Hllm in Hu.
  destruct (validate_sql_query (strip_code_fence content)) as [[|] r];
    [discriminate | now subst u].
Qed.

(** The execution step does not look at [error]: the non-empty text that
    the generation step left in [sql_query] goes to the warehouse as soon as
    there is a client. *)
Lemma execute_query_node_sends (state : AgentState) (tr : Trace)
    (u : Update) (q : string) (client : BigQueryRunner) :
  u_sql_query u = Some (Some q) -> q <> "" ->
  _bq_client env = Some client ->
  snd (execute_query_node env (apply_update state u) tr)
  = (tr ++ [ExecuteQuery q])%list.
Proof.
  intros Hu Hne Hc. unfold execute_query_node, apply_update. cbn [sql_query].
  rewrite Hu. cbn [last_value]. destruct q as [|c q]; [now elim Hne|].
  unfold execute_query_direct, get_bigquery_client. rewrite Hc.
  unfold bind, call, ret. reflexivity.
Qed.

(** With a schema in the state the generation step asks the catalogue
    nothing and leaves [schema_context] as it is. *)
Lemma generate_sql_node_cached (state : AgentState) (tr : Trace)
    (sc : Schema) :
  schema_context state = Some sc -> sc <> [] ->
  (forall table,
     schema_fetches table (snd (generate_sql_node env state tr))
     = schema_fetches table tr)
  /\ schema_context
       (apply_update state (fst (generate_sql_node env state tr)))
     = schema_context state.
Proof.
  intros Hsc Hne. unfold generate_sql_node. rewrite Hsc.
  destruct sc as [|x sc]; [now elim Hne|].
  unfold bind, ret, llm_invoke, call. cbn [fst snd]. split.
  - intros table. rewrite schema_fetches_app. cbn. lia.
  - destruct (llm env tr _) as [content|e]; [|exact Hsc].
    destruct (validate_sql_query (strip_code_fence content)) as [[|] r];
      [reflexivity | exact Hsc].
Qed.

End GenerateThenExecute.

(** C1, on the code.  The backend answers "DROP TABLE t"; the generation
    step records the validator's reason in [error] and keeps the text in
    [sql_query]; the execution step, which follows it on an unconditional
    edge, hands that text to the warehouse. *)
Theorem rejected_sql_is_executed :
  let st0 := initial_state "drop it" in
  let (u1, tr1) := analyze_request_node drop_env st0 [] in
  let st1 := apply_update st0 u1 in
  let (u2, tr2) := generate_sql_node drop_env st1 tr1 in
  let st2 := apply_update st1 u2 in
  let (u3, tr3) := execute_query_node drop_env st2 tr2 in
  fst (validate_sql_query "DROP TABLE t") = false
  /\ error st2 = Some ("Invalid SQL: " ++ dangerous_reason "drop")
  /\ sql_query st2 = Some "DROP TABLE t"
  /\ next_node Node.generate_sql st2 = Some Node.execute_query
  /\ executed tr2 = []
  /\ executed tr3 = ["DROP TABLE t"]
  /\ executed (snd (graph_invoke drop_env 25 st0 [])) = ["DROP TABLE t"].
Proof. vm_compute. repeat split. Qed.

(** C5, on the code.  When the backend fails on the first SQL request, or
    when its first answer is rejected, the update of the generation step
    does not carry the schema, and the retry asks the catalogue for every
    table a second time within one completed run. *)
Theorem schema_fetched_twice :
  (exists final,
     fst (graph_invoke backend_failure_env 25 (initial_state "q") [])
     = Finished final)
  /\ schema_fetches "orders"
       (snd (graph_invoke backend_failure_env 25 (initial_state "q") [])) = 2
  /\ (exists final,
        fst (graph_invoke rejected_then_fixed_env 25 (initial_state "q") [])
        = Finished final)
  /\ schema_fetches "orders"
       (snd (graph_invoke rejected_then_fixed_env 25 (initial_state "q") []))
     = 2.
Proof.
  split; [eexists; vm_compute; reflexivity|].
  split; [vm_compute; reflexivity|].
  split; [eexists; vm_compute; reflexivity | vm_compute; reflexivity].
Qed.

(* ===================================================================== *)
(** ** The conversation *)
(* ===================================================================== *)

Section Conversation.

Variable env : Env.

(** The four steps before the last leave [messages] out of their update. *)
Lemma run_node_messages (n : Node.t) (state : AgentState) (tr tr' : Trace)
    (u : Update) :
  n <> Node.respond ->
  run_node env n state tr = (Ok u, tr') -> u_messages u = None.
Proof.
  intros Hn H. destruct n; [| | | |now elim Hn];
    unfold run_node, bind, ret in H.
  - unfold analyze_request_node, bind, ret, llm_invoke, call in H.
    injection H as <- _. now destruct (llm env tr _).
  - destruct (generate_sql_node env state tr) as [u' tr1] eqn:G.
    injection H as <- _.
    unfold generate_sql_node, bind, ret in G.
    destruct (match schema_context state with
              | Some ((_ :: _) as cached) => fun tr0 => (Ok cached, tr0)
              | _ => get_all_table_schemas env
              end tr) as [[sc|e] tr0].
    + unfold llm_invoke, call in G. injection G as <- _.
      destruct (llm env tr0 _) as [content|e]; [|reflexivity].
      now destruct (validate_sql_query (strip_code_fence content)) as [[|] r].
    + now injection G as <- _.
  - destruct (execute_query_node env state tr) as [u' tr1] eqn:X.
    injection H as <- _.
    unfold execute_query_node in X.
    destruct (sql_query state) as [[|c q]|];
      try (injection X as <- _; reflexivity).
    unfold bind, ret in X.
    destruct (execute_query_direct env (String c q) tr) as [[df|e] tr0];
      now injection X as <- _.
  - destruct (analyze_results_node env state tr) as [u' tr1] eqn:A.
    injection H as <- _.
    unfold analyze_results_node in A.
    destruct (query_results state) as [df|];
      [|injection A as <- _; reflexivity].
    destruct (df_empty df); [injection A as <- _; reflexivity|].
    unfold bind, ret, llm_invoke, call in A. injection A as <- _.
    now destruct (llm env tr _).
Qed.

(** The last step returns one message. *)
Lemma respond_node_messages (state : AgentState) (u : Update) :
  respond_node state = Ok u -> exists m, u_messages u = Some [m].
Proof.
  unfold respond_node.
  destruct (if truthy (error state) && negb (truthy (insights state))
            then _ else _) as [content|];
    destruct (match query_results state with Some _ => _ | None => _ end)
      as [suffix|];
    intros H; try discriminate; injection H as <-; eexists; reflexivity.
Qed.

(** The engine concatenates what a node returned for [messages]. *)
Lemma apply_update_messages (state : AgentState) (u : Update) :
  messages (apply_update state u)
  = (messages state
     ++ match u_messages u with Some new => new | None => [] end)%list.
Proof.
  unfold apply_update. cbn [messages].
  destruct (u_messages u); [reflexivity | now rewrite app_nil_r].
Qed.

Lemma graph_run_messages (limit : nat) :
  forall (n : Node.t) (state final : AgentState) (tr tr' : Trace),
    graph_run env limit n state tr = (Finished final, tr') ->
    exists m, messages final = (messages state ++ [m])%list.
Proof.
  induction limit as [|limit IH]; intros n state final tr tr' H.
  - discriminate.
  - cbn [graph_run] in H. unfold bind in H.
    destruct (run_node env n state tr) as [[u|e] tr1] eqn:R;
      [|discriminate].
    assert (D : n = Node.respond \/ n <> Node.respond)
      by (destruct n; (now left) || (right; discriminate)).
    destruct D as [-> | Hn].
    + cbn [next_node] in H. destruct limit; [discriminate|].
      injection H as <- _.
      unfold run_node, ret in R. injection R as R _.
      destruct (respond_node_messages _ _ R) as [m Hm].
      exists m. now rewrite apply_update_messages, Hm.
    + pose proof (run_node_messages _ _ _ _ _ Hn R) as Hu.
      assert (Hs : messages (apply_update state u) = messages state)
        by (rewrite apply_update_messages, Hu; apply app_nil_r).
      destruct (next_node n (apply_update state u)) as [n'|] eqn:N.
      * apply IH in H. destruct H as [m Hm]. exists m. now rewrite Hm, Hs.
      * destruct n; try discriminate. now elim Hn.
Qed.

(** C8.  Every step but the last leaves [messages] out of its update; the
    last returns exactly one message; the engine concatenates what a step
    returned to the conversation; and so a run that reaches the end leaves
    the conversation exactly one entry longer, whatever retries it went
    through. *)
Theorem conversation_grows_by_one :
  (forall n state tr tr' u,
     n <> Node.respond -> run_node env n state tr = (Ok u, tr') ->
     u_messages u = None)
  /\ (forall state u, respond_node state = Ok u ->
                      exists m, u_messages u = Some [m])
  /\ (forall state u,
        messages (apply_update state u)
        = (messages state
           ++ match u_messages u with Some new => new | None => [] end)%list)
  /\ (forall limit state final tr tr',
        graph_invoke env limit state tr = (Finished final, tr') ->
        (exists m, messages final = (messages state ++ [m])%list)
        /\ List.length (messages final) = S (List.length (messages state))).
Proof.
  split; [exact run_node_messages|].
  split; [exact respond_node_messages|].
  split; [exact apply_update_messages|].
  intros limit state final tr tr' H.
  destruct (graph_run_messages _ _ _ _ _ _ H) as [m Hm].
  split; [now exists m|]. rewrite Hm, length_app. cbn. lia.
Qed.

End Conversation.

(** C8 on a run with a failed execution and a second SQL generation. *)
Lemma conversation_grows_by_one_witness :
  exists final,
    fst (graph_invoke one_failure_env 25 (initial_state "q") [])
    = Finished final
    /\ executed (snd (graph_invoke one_failure_env 25 (initial_state "q") []))
       = ["SELECT a FROM t"; "SELECT b FROM t"]
    /\ List.length (messages final) = 1.
Proof.
  destruct (graph_invoke one_failure_env 25 (initial_state "q") [])
    as [out tr] eqn:E.
  assert (E' := E). vm_compute in E'. injection E' as <- <-.
  eexists. split; [reflexivity|]. split; [reflexivity|].
  destruct (conversation_grows_by_one one_failure_env) as (_ & _ & _ & H).
  apply (H _ _ _ _ _ E).
Defined.

(* ===================================================================== *)
(** ** The code fence around generated SQL *)
(* ===================================================================== *)

Section CodeFence.

Lemma replace_absent (old new x : string) :
  Py.contains x old = false -> Py.replace_from 0 old new x = x.
Proof.
  induction x as [|c x IH]; [reflexivity|].
  cbn [Py.contains Py.replace_from]. intros H.
  apply orb_false_iff in H. destruct H as [H1 H2].
  now rewrite H1, (IH H2).
Qed.

(** A line feed within the first three characters rules the fence out. *)
Lemma startswith_fence_line (x y : string) :
  Py.startswith (x ++ Py.nl ++ y) "```" = Py.startswith x "```".
Proof.
  destruct x as [|a [|b [|c x]]]; cbn [append Py.startswith];
    repeat match goal with
           | |- context [Ascii.eqb "`"%char ?q] =>
               is_var q; destruct (Ascii.eqb "`"%char q)
           end;
    reflexivity.
Qed.

Lemma startswith_tag_fence (x : string) :
  Py.startswith x "```sql" = true -> Py.startswith x "```" = true.
Proof.
  rewrite !startswith_iff. intros [rest ->]. now exists ("sql" ++ rest).
Qed.

Lemma no_tag_before_closing_fence (s : string) :
  Py.contains s "```" = false ->
  Py.contains (s ++ Py.nl ++ "```") "```sql" = false.
Proof.
  induction s as [|c s IH]; [reflexivity|].
  cbn [Py.contains append]. intros H.
  apply orb_false_iff in H. destruct H as [H1 H2].
  rewrite (IH H2), orb_false_r.
  destruct (Py.startswith (String c (s ++ Py.nl ++ "```")) "```sql") eqn:E;
    [|reflexivity].
  apply startswith_tag_fence in E.
  change (String c (s ++ Py.nl ++ "```"))
    with (String c s ++ Py.nl ++ "```") in E.
  rewrite startswith_fence_line in E. congruence.
Qed.

Lemma replace_closing_fence (s : string) :
  Py.contains s "```" = false ->
  Py.replace_from 0 "```" "" (s ++ Py.nl ++ "```") = s ++ Py.nl.
Proof.
  induction s as [|c s IH]; [reflexivity|].
  cbn [Py.contains]. intros H.
  apply orb_false_iff in H. destruct H as [H1 H2].
  change (String c s ++ Py.nl ++ "```")
    with (String c (s ++ Py.nl ++ "```")).
  cbn [Py.replace_from].
  change (String c (s ++ Py.nl ++ "```"))
    with (String c s ++ Py.nl ++ "```") at 1.
  rewrite startswith_fence_line, H1, (IH H2). reflexivity.
Qed.

Lemma no_fence_after_line (s : string) :
  Py.contains s "```" = false -> Py.contains (Py.nl ++ s) "```" = false.
Proof.
  intros H. change (Py.nl ++ s) with (String (ascii_of_nat 10) s).
  cbn [Py.contains]. rewrite H, orb_false_r.
  change (String (ascii_of_nat 10) s) with ("" ++ Py.nl ++ s).
  now rewrite startswith_fence_line.
Qed.

Lemma replace_tagged (s : string) :
  Py.contains s "```" = false ->
  Py.replace (Py.replace (wrap_tagged s) "```sql" "") "```" ""
  = Py.nl ++ s ++ Py.nl.
Proof.
  intros H. apply no_fence_after_line in H.
  transitivity (Py.replace ((Py.nl ++ s) ++ Py.nl ++ "```") "```" "").
  - f_equal.
    transitivity (Py.replace_from 0 "```sql" "" ((Py.nl ++ s) ++ Py.nl ++ "```")).
    + reflexivity.
    + apply replace_absent. now apply no_tag_before_closing_fence.
  - unfold Py.replace. rewrite (replace_closing_fence _ H).
    apply append_assoc.
Qed.

Lemma replace_bare (s : string) :
  Py.contains s "```" = false ->
  Py.replace (wrap_bare s) "```" "" = Py.nl ++ s ++ Py.nl.
Proof.
  intros H. apply no_fence_after_line in H.
  transitivity (Py.replace_from 0 "```" "" ((Py.nl ++ s) ++ Py.nl ++ "```")).
  - reflexivity.
  - rewrite (replace_closing_fence _ H). apply append_assoc.
Qed.

Lemma strip_bracketed (c d : ascii) (x : string) :
  Py.isspace c = false -> Py.isspace d = false ->
  Py.strip (String c (x ++ String d "")) = String c (x ++ String d "").
Proof.
  intros Hc Hd. unfold Py.strip.
  change (String c (x ++ String d "")) with (String c x ++ String d "").
  rewrite (rstrip_app_char _ _ Hd). cbn [append Py.lstrip]. now rewrite Hc.
Qed.

Lemma strip_wrap_tagged (s : string) :
  Py.strip (wrap_tagged s) = wrap_tagged s.
Proof.
  assert (E : wrap_tagged s
              = String "`" (("``sql" ++ Py.nl ++ s ++ Py.nl ++ "``")
                            ++ String "`" "")).
  { unfold wrap_tagged. cbn [append]. now rewrite !append_assoc. }
  rewrite E. now apply strip_bracketed.
Qed.

Lemma strip_wrap_bare (s : string) : Py.strip (wrap_bare s) = wrap_bare s.
Proof.
  assert (E : wrap_bare s
              = String "`" (("``" ++ Py.nl ++ s ++ Py.nl ++ "``")
                            ++ String "`" "")).
  { unfold wrap_bare. cbn [append]. now rewrite !append_assoc. }
  rewrite E. now apply strip_bracketed.
Qed.

Lemma strip_between_lines (s : string) :
  Py.strip (Py.nl ++ s ++ Py.nl) = Py.strip s.
Proof.
  change (Py.nl ++ s ++ Py.nl)
    with (String (ascii_of_nat 10) (s ++ String (ascii_of_nat 10) "")).
  rewrite lstrip_rstrip_cons_space by reflexivity.
  now apply strip_app_space.
Qed.

(** A text without a fence is only trimmed. *)
Lemma strip_code_fence_plain (s : string) :
  ~ occurs_in "```" s -> strip_code_fence s = Py.strip s.
Proof.
  intros H. unfold strip_code_fence.
  assert (F : Py.startswith (Py.strip s) "```" = false).
  { destruct (Py.startswith (Py.strip s) "```") eqn:E; [|reflexivity].
    elim H. apply startswith_iff in E. destruct E as [rest E].
    destruct (strip_infix s) as (pre & post & Hs).
    exists pre, (rest ++ post). rewrite Hs at 1. rewrite E.
    now rewrite !append_assoc. }
  destruct (Py.startswith (Py.strip s) "```sql") eqn:T.
  - apply startswith_tag_fence in T. congruence.
  - now rewrite F.
Qed.

(** C6, as the code has it.  For an SQL text in which three backquotes in a
    row do not occur, the clean-up of the generation step gives the same
    text for the text itself, for the text in a code block tagged sql and
    for the text in a code block without a tag. *)
Theorem strip_code_fence_wrapped (s : string) :
  ~ occurs_in "```" s ->
  strip_code_fence (wrap_tagged s) = strip_code_fence s
  /\ strip_code_fence (wrap_bare s) = strip_code_fence s.
Proof.
  intros H. rewrite (strip_code_fence_plain s H).
  assert (C : Py.contains s "```" = false).
  { destruct (Py.contains s "```") eqn:E; [|reflexivity].
    elim H. now apply contains_iff. }
  split; unfold strip_code_fence.
  - rewrite strip_wrap_tagged.
    replace (Py.startswith (wrap_tagged s) "```sql") with true
      by reflexivity.
    rewrite (replace_tagged s C). apply strip_between_lines.
  - rewrite strip_wrap_bare.
    replace (Py.startswith (wrap_bare s) "```sql") with false by reflexivity.
    replace (Py.startswith (wrap_bare s) "```") with true by reflexivity.
    rewrite (replace_bare s C). apply strip_between_lines.
Qed.

(** C6 on a query that quotes a table name the BigQuery way. *)
Lemma strip_code_fence_wrapped_witness :
  strip_code_fence (wrap_tagged "SELECT * FROM `shop.orders` LIMIT 10")
  = strip_code_fence "SELECT * FROM `shop.orders` LIMIT 10"
  /\ strip_code_fence (wrap_bare "SELECT * FROM `shop.orders` LIMIT 10")
     = strip_code_fence "SELECT * FROM `shop.orders` LIMIT 10".
Proof.
  apply (strip_code_fence_wrapped "SELECT * FROM `shop.orders` LIMIT 10").
  intros H. apply contains_iff in H. vm_compute in H. discriminate.
Defined.

(** C6 as stated fails on a query with three backquotes in a string
    literal: unwrapped it is left as it is, wrapped it loses them. *)
Lemma strip_code_fence_inner_fence :
  strip_code_fence "SELECT '```' AS fence" = "SELECT '```' AS fence"
  /\ strip_code_fence (wrap_tagged "SELECT '```' AS fence")
     = "SELECT '' AS fence"
  /\ strip_code_fence (wrap_bare "SELECT '```' AS fence")
     = "SELECT '' AS fence"
  /\ strip_code_fence (wrap_tagged "SELECT '```' AS fence")
     <> strip_code_fence "SELECT '```' AS fence"
  /\ strip_code_fence (wrap_bare "SELECT '```' AS fence")
     <> strip_code_fence "SELECT '```' AS fence".
Proof. repeat split; (reflexivity || (vm_compute; discriminate)). Qed.

(** Only the tag sql, in lower case, is taken off with the fence: under
    another tag the tag stays in the text. *)
Example strip_code_fence_other_tag :
  strip_code_fence ("```SQL" ++ Py.nl ++ "SELECT 1" ++ Py.nl ++ "```")
  = "SQL" ++ Py.nl ++ "SELECT 1".
Proof. reflexivity. Qed.

End CodeFence.

(* ===================================================================== *)
(** ** Error texts *)
(* ===================================================================== *)

Section ErrorTexts.

Variable env : Env.

(** No step sets [error] to the empty string: every error text starts with
    a fixed label. *)
Lemma run_node_error_nonempty (n : Node.t) (state : AgentState)
    (tr tr' : Trace) (u : Update) :
  run_node env n state tr = (Ok u, tr') -> u_error u <> Some (Some "").
Proof.
  intros H. destruct n; unfold run_node, bind, ret in H.
  - unfold analyze_request_node, bind, ret, llm_invoke, call in H.
    injection H as <- _. now destruct (llm env tr _).
  - destruct (generate_sql_node env state tr) as [u' tr1] eqn:G.
    injection H as <- _.
    unfold generate_sql_node, bind, ret in G.
    destruct (match schema_context state with
              | Some ((_ :: _) as cached) => fun tr0 => (Ok cached, tr0)
              | _ => get_all_table_schemas env
              end tr) as [[sc|e] tr0].
    + unfold llm_invoke, call in G. injection G as <- _.
      destruct (llm env tr0 _) as [content|e]; [|discriminate].
      now destruct (validate_sql_query (strip_code_fence content)) as [[|] r].
    + now injection G as <- _.
  - destruct (execute_query_node env state tr) as [u' tr1] eqn:X.
    injection H as <- _.
    unfold execute_query_node in X.
    destruct (sql_query state) as [[|c q]|];
      try (injection X as <- _; discriminate).
    unfold bind, ret in X.
    destruct (execute_query_direct env (String c q) tr) as [[df|e] tr0];
      now injection X as <- _.
  - destruct (analyze_results_node env state tr) as [u' tr1] eqn:A.
    injection H as <- _.
    unfold analyze_results_node in A.
    destruct (query_results state) as [df|];
      [|injection A as <- _; discriminate].
    destruct (df_empty df); [injection A as <- _; discriminate|].
    unfold bind, ret, llm_invoke, call in A. injection A as <- _.
    now destruct (llm env tr _).
  - injection H as H _. unfold respond_node in H.
    destruct (if truthy (error state) && negb (truthy (insights state))
              then _ else _) as [content|];
      destruct (match query_results state with Some _ => _ | None => _ end)
        as [suffix|];
      try discriminate; now injection H as <-.
Qed.

(** So a run that starts without an empty error text never shows one to
    the retry policy or to the routing function. *)
Lemma error_never_empty (n : Node.t) (state : AgentState) (tr tr' : Trace)
    (u : Update) :
  error state <> Some "" ->
  run_node env n state tr = (Ok u, tr') ->
  error (apply_update state u) <> Some "".
Proof.
  intros Hs H. apply run_node_error_nonempty in H.
  unfold apply_update. cbn [error].
  destruct (u_error u) as [e|]; cbn [last_value]; congruence.
Qed.

End ErrorTexts.

(** A run may also end at the recursion limit: when the backend never
    answers, the step without a query does not count a retry, and the loop
    between generation and execution goes on. *)
Example silent_backend_loops :
  fst (graph_invoke silent_env 25 (initial_state "q") []) = RecursionLimit.
Proof. vm_compute. reflexivity. Qed.

(* ===================================================================== *)
(** ** The schema catalogue *)
(* ===================================================================== *)

Section Catalogue.

Lemma fetch_schemas_spec (client : BigQueryRunner) (tables : list string) :
  forall tr,
    map fst (fst (fetch_schemas client tables tr)) = tables
    /\ snd (fetch_schemas client tables tr)
       = (tr ++ map GetTableSchema tables)%list
    /\ Forall (fun entry =>
                 snd entry = []
                 \/ exists tr0, get_table_schema client tr0 (fst entry)
                                = Ok (snd entry))
              (fst (fetch_schemas client tables tr)).
Proof.
  induction tables as [|table rest IH]; intros tr.
  - cbn. rewrite app_nil_r. conjs; [reflexivity | reflexivity | constructor].
  - cbn [fetch_schemas]. unfold bind, call, ret.
    destruct (IH (tr ++ [GetTableSchema table])%list) as (Hk & Ht & Hf).
    destruct (fetch_schemas client rest (tr ++ [GetTableSchema table])%list)
      as [schemas tr1].
    cbn [fst snd] in *. conjs.
    + cbn [map fst]. now rewrite Hk.
    + rewrite Ht, <- app_assoc. reflexivity.
    + constructor; [|exact Hf]. cbn [fst snd].
      destruct (get_table_schema client tr table) as [fields|e] eqn:E;
        [right; now exists tr | now left].
Qed.

Lemma get_all_table_schemas_cases (env : Env) (tr : Trace) :
  (forall client, _bq_client env = Some client ->
     exists schemas,
       get_all_table_schemas env tr
       = (Ok schemas, (tr ++ map GetTableSchema main_tables)%list)
       /\ map fst schemas = main_tables
       /\ truthy_schema (Some schemas) = true
       /\ Forall (fun entry =>
                    snd entry = []
                    \/ exists tr0, get_table_schema client tr0 (fst entry)
                                   = Ok (snd entry))
                 schemas)
  /\ (_bq_client env = None ->
      exists msg, get_all_table_schemas env tr = (Raise msg, tr)).
Proof.
  unfold get_all_table_schemas, get_bigquery_client. split.
  - intros client Hc. rewrite Hc. unfold bind, ret.
    destruct (fetch_schemas_spec client main_tables tr) as (Hk & Ht & Hf).
    destruct (fetch_schemas client main_tables tr) as [schemas tr1].
    cbn [fst snd] in *. subst tr1. exists schemas.
    conjs; [reflexivity | exact Hk | | exact Hf].
    destruct schemas; [discriminate | reflexivity].
  - intros Hc. rewrite Hc. eexists. reflexivity.
Qed.

Lemma fetch_schemas_nth (client : BigQueryRunner) (tables : list string) :
  forall (tr : Trace) (k : nat) (table : string),
    nth_error tables k = Some table ->
    nth_error (fst (fetch_schemas client tables tr)) k
    = Some (table,
            match get_table_schema client
                    (tr ++ map GetTableSchema (firstn k tables))%list table
            with
            | Ok fields => fields
            | Raise _ => []
            end).
Proof.
  induction tables as [|t rest IH]; intros tr k table Hk.
  - destruct k; discriminate.
  - cbn [fetch_schemas]. unfold bind, call, ret.
    pose proof (IH (tr ++ [GetTableSchema t])%list) as IH'.
    destruct (fetch_schemas client rest (tr ++ [GetTableSchema t])%list)
      as [schemas tr1]. cbn [fst] in *.
    destruct k as [|k].
    + injection Hk as <-. cbn [nth_error firstn map]. now rewrite app_nil_r.
    + cbn [nth_error firstn map] in *. rewrite (IH' k table Hk).
      now rewrite <- app_assoc.
Qed.

(** X1.  With a client, [get_all_table_schemas] never raises: it asks the
    catalogue once for each of orders, order_items, products, users, in
    that order, and returns a dictionary with exactly these four keys, in
    which a table is described by the fields the catalogue answered to its
    lookup, and by the empty list when that lookup raised.  Without a client
    it raises before asking anything. *)
Theorem get_all_table_schemas_spec (env : Env) (tr : Trace) :
  (forall client, _bq_client env = Some client ->
     exists schemas,
       get_all_table_schemas env tr
       = (Ok schemas, (tr ++ map GetTableSchema main_tables)%list)
       /\ map fst schemas = main_tables
       /\ truthy_schema (Some schemas) = true
       /\ forall k table,
            nth_error main_tables k = Some table ->
            let asked :=
              (tr ++ map GetTableSchema (firstn k main_tables))%list in
            (forall fields,
               get_table_schema client asked table = Ok fields ->
               nth_error schemas k = Some (table, fields))
            /\ (forall e,
                  get_table_schema client asked table = Raise e ->
                  nth_error schemas k = Some (table, [])))
  /\ (_bq_client env = None ->
      exists msg, get_all_table_schemas env tr = (Raise msg, tr)).
Proof.
  split; [|apply get_all_table_schemas_cases].
  intros client Hc.
  destruct (get_all_table_schemas_cases env tr) as [H _].
  destruct (H client Hc) as (schemas & E & Hk & Ht & _).
  exists schemas. conjs; [exact E | exact Hk | exact Ht |].
  intros k table Hn. cbv zeta.
  pose proof (fetch_schemas_nth client main_tables tr k table Hn) as N.
  assert (S0 : fst (fetch_schemas client main_tables tr) = schemas).
  { unfold get_all_table_schemas, get_bigquery_client in E.
    rewrite Hc in E. unfold bind, ret in E.
    destruct (fetch_schemas client main_tables tr) as [sch tr1].
    now injection E as <- _. }
  rewrite S0 in N. split.
  - intros fields F. now rewrite F in N.
  - intros e F. now rewrite F in N.
Qed.

End Catalogue.

(** X1 on a catalogue that knows one table only: the lookup of orders
    raises and gives the empty list, the lookup of users gives its column. *)
Lemma get_all_table_schemas_spec_witness :
  exists schemas,
    get_all_table_schemas users_only_env []
    = (Ok schemas, ([] ++ map GetTableSchema main_tables)%list)
    /\ map fst schemas = main_tables
    /\ nth_error schemas 0 = Some ("orders", [])
    /\ nth_error schemas 3
       = Some ("users", [{| f_name := "id"; f_type := "INTEGER";
                            f_description := None |}]).
Proof.
  destruct (get_all_table_schemas_spec users_only_env []) as [H _].
  destruct (H users_only_runner eq_refl) as (schemas & E & Hk & _ & Hn).
  exists schemas. conjs; [exact E | exact Hk | |].
  - apply (proj2 (Hn 0 "orders" eq_refl) "Not found"). reflexivity.
  - apply (proj1 (Hn 3 "users" eq_refl)). reflexivity.
Defined.

(* ===================================================================== *)
(** ** More facts about trimming *)
(* ===================================================================== *)

Section Trimming.

Lemma all_space_rstrip (w : string) : all_space w = true -> Py.rstrip w = "".
Proof.
  induction w as [|c w IH]; [reflexivity|]. cbn [all_space Py.rstrip].
  intros H. apply andb_true_iff in H. destruct H as [Hc Hw].
  now rewrite (IH Hw), Hc.
Qed.

Lemma rstrip_app_all_space (x b : string) :
  all_space b = true -> Py.rstrip (x ++ b) = Py.rstrip x.
Proof.
  intros Hb. induction x as [|c x IH]; cbn [append Py.rstrip].
  - now apply all_space_rstrip.
  - now rewrite IH.
Qed.

Lemma strip_app_all_space_l (a x : string) :
  all_space a = true -> Py.strip (a ++ x) = Py.strip x.
Proof.
  induction a as [|c a IH]; [reflexivity|]. cbn [all_space append].
  intros H. apply andb_true_iff in H. destruct H as [Hc Ha].
  rewrite (lstrip_rstrip_cons_space _ _ Hc). now apply IH.
Qed.

(** Blanks around a text do not change what [strip] returns. *)
Lemma strip_pad (a x b : string) :
  all_space a = true -> all_space b = true ->
  Py.strip (a ++ x ++ b) = Py.strip x.
Proof.
  intros Ha Hb. rewrite <- append_assoc. unfold Py.strip at 1.
  rewrite (rstrip_app_all_space _ _ Hb).
  now apply (strip_app_all_space_l a x).
Qed.

Lemma rstrip_no_space (v : string) : no_space v = true -> Py.rstrip v = v.
Proof.
  induction v as [|c v IH]; [reflexivity|]. cbn [no_space Py.rstrip].
  intros H. apply andb_true_iff in H. destruct H as [Hc Hv].
  apply negb_true_iff in Hc. now rewrite (IH Hv), Hc.
Qed.

Lemma strip_no_space (v : string) : no_space v = true -> Py.strip v = v.
Proof.
  intros H. unfold Py.strip. rewrite (rstrip_no_space _ H).
  destruct v as [|c v]; [reflexivity|]. cbn [no_space] in H.
  apply andb_true_iff in H. destruct H as [Hc _].
  apply negb_true_iff in Hc. cbn [Py.lstrip]. now rewrite Hc.
Qed.

Lemma no_space_lower (v : string) : no_space (Py.lower v) = no_space v.
Proof.
  induction v as [|c v IH]; [reflexivity|]. cbn [Py.lower no_space].
  now rewrite isspace_lower_char, IH.
Qed.

Lemma all_space_lower (w : string) : all_space (Py.lower w) = all_space w.
Proof.
  induction w as [|c w IH]; [reflexivity|]. cbn [Py.lower all_space].
  now rewrite isspace_lower_char, IH.
Qed.

Lemma lower_lstrip (s : string) :
  Py.lower (Py.lstrip s) = Py.lstrip (Py.lower s).
Proof.
  induction s as [|c s IH]; [reflexivity|]. cbn [Py.lower Py.lstrip].
  rewrite isspace_lower_char. now destruct (Py.isspace c).
Qed.

Lemma lower_rstrip (s : string) :
  Py.lower (Py.rstrip s) = Py.rstrip (Py.lower s).
Proof.
  induction s as [|c s IH]; [reflexivity|]. cbn [Py.lower Py.rstrip].
  rewrite isspace_lower_char, <- IH, nonempty_lower.
  now destruct (Py.isspace c && negb (Py.nonempty (Py.rstrip s))).
Qed.

Lemma lower_strip (s : string) : Py.lower (Py.strip s) = Py.strip (Py.lower s).
Proof. unfold Py.strip. now rewrite lower_lstrip, lower_rstrip. Qed.

Lemma rstrip_idem (s : string) : Py.rstrip (Py.rstrip s) = Py.rstrip s.
Proof.
  induction s as [|c s IH]; [reflexivity|]. cbn [Py.rstrip].
  destruct (Py.isspace c && negb (Py.nonempty (Py.rstrip s))) eqn:E;
    [reflexivity|].
  cbn [Py.rstrip]. now rewrite IH, E.
Qed.

Lemma lstrip_idem (s : string) : Py.lstrip (Py.lstrip s) = Py.lstrip s.
Proof.
  induction s as [|c s IH]; [reflexivity|]. cbn [Py.lstrip].
  destruct (Py.isspace c) eqn:E; [exact IH|]. cbn [Py.lstrip]. now rewrite E.
Qed.

Lemma rstrip_lstrip (s : string) :
  Py.rstrip (Py.lstrip s) = Py.lstrip (Py.rstrip s).
Proof.
  induction s as [|c s IH]; [reflexivity|]. cbn [Py.lstrip Py.rstrip].
  destruct (Py.isspace c) eqn:Hc; cbn [andb].
  - rewrite IH. destruct (Py.nonempty (Py.rstrip s)) eqn:E; cbn [negb].
    + cbn [Py.lstrip]. now rewrite Hc.
    + now rewrite (nonempty_false _ E).
  - cbn [Py.rstrip Py.lstrip]. now rewrite Hc.
Qed.

(** Trimming twice is trimming once. *)
Lemma strip_idem (s : string) : Py.strip (Py.strip s) = Py.strip s.
Proof.
  unfold Py.strip. now rewrite rstrip_lstrip, rstrip_idem, lstrip_idem.
Qed.

End Trimming.

(* ===================================================================== *)
(** ** More on the validator and the clean-up *)
(* ===================================================================== *)

Section ValidatorMore.

Lemma validate_accepts (s : string) :
  validate_sql_query s = (true, None) ->
  (forall t, token_of t s -> ~ In (Py.lower t) dangerous_keywords)
  /\ begins_with (Py.strip (Py.lower s)) "select"
  /\ Py.count s "("%char = Py.count s ")"%char.
Proof.
  intros H. conjs.
  - intros t Ht Hk.
    destruct (validate_dangerous_token s t Ht Hk) as (k & t' & _ & _ & _ & E).
    congruence.
  - destruct (Py.startswith (Py.strip (Py.lower s)) "select") eqn:E.
    + now apply startswith_iff.
    + exfalso. assert (F : fst (validate_sql_query s) = false).
      { apply validate_not_select. intros B. apply startswith_iff in B.
        congruence. }
      rewrite H in F. discriminate.
  - destruct (Nat.eq_dec (Py.count s "("%char) (Py.count s ")"%char))
      as [E|N]; [exact E|].
    exfalso. pose proof (validate_unbalanced s N) as F.
    rewrite H in F. discriminate.
Qed.

Lemma validate_accepted (s : string) :
  (forall t, token_of t s -> ~ In (Py.lower t) dangerous_keywords) ->
  begins_with (Py.strip (Py.lower s)) "select" ->
  Py.count s "("%char = Py.count s ")"%char ->
  validate_sql_query s = (true, None).
Proof.
  intros Ht Hs Hc. unfold validate_sql_query.
  rewrite tokens_of_sql_lower.
  destruct (find _ dangerous_keywords) as [k|] eqn:F.
  - exfalso. apply find_some in F. destruct F as [Hin Hmem].
    apply mem_iff, in_map_iff in Hmem. destruct Hmem as (t & <- & Hin').
    apply (Ht t); [now apply split_tokens | exact Hin].
  - apply startswith_iff in Hs. rewrite Hs. cbn [negb].
    destruct (parens_of_sql_lower s) as [-> ->].
    now rewrite Hc, Nat.eqb_refl.
Qed.

(** X2.  The validator accepts a statement exactly when none of its
    whitespace-delimited tokens is a forbidden keyword in any case, its
    trimmed lower-cased text begins with select and it has as many "(" as
    ")". *)
Theorem validate_sql_query_accepts_iff (s : string) :
  validate_sql_query s = (true, None)
  <-> (forall t, token_of t s -> ~ In (Py.lower t) dangerous_keywords)
      /\ begins_with (Py.strip (Py.lower s)) "select"
      /\ Py.count s "("%char = Py.count s ")"%char.
Proof.
  split; [apply validate_accepts|].
  intros (Ht & Hs & Hc). now apply validate_accepted.
Qed.

(** X3.  The verdict does not change when the statement is lower-cased or
    when blanks are put around it. *)
Theorem validate_sql_query_case_and_padding (a s b : string) :
  all_space a = true -> all_space b = true ->
  validate_sql_query (a ++ s ++ b) = validate_sql_query s
  /\ validate_sql_query (Py.lower s) = validate_sql_query s.
Proof.
  intros Ha Hb. unfold validate_sql_query. split.
  - rewrite !lower_app, strip_pad; [reflexivity | |];
      now rewrite all_space_lower.
  - now rewrite lower_idem.
Qed.

(** X3 on a statement in capitals between a tab and a line feed. *)
Lemma validate_sql_query_case_and_padding_witness :
  validate_sql_query ("	" ++ "SELECT * FROM T" ++ Py.nl)
  = validate_sql_query "SELECT * FROM T"
  /\ validate_sql_query (Py.lower "SELECT * FROM T")
     = validate_sql_query "SELECT * FROM T".
Proof.
  apply (validate_sql_query_case_and_padding "	" "SELECT * FROM T" Py.nl);
    reflexivity.
Defined.

Lemma strip_code_fence_trimmed_eq (content : string) :
  Py.strip (strip_code_fence content) = strip_code_fence content.
Proof.
  unfold strip_code_fence.
  destruct (Py.startswith (Py.strip content) "```sql");
    [apply strip_idem|].
  destruct (Py.startswith (Py.strip content) "```"); apply strip_idem.
Qed.

End ValidatorMore.

(* ===================================================================== *)
(** ** The intent step and the generation step *)
(* ===================================================================== *)

Section IntentAndGeneration.

Variable env : Env.

(** X4.  The intent step calls the backend once and always leaves one of
    the five analysis types in the state: the answer when it is one of them
    after trimming and lower-casing, general_query otherwise; [error] is
    cleared when the backend answered and carries the failure when it
    raised. *)
Theorem analyze_request_node_spec (state : AgentState) (tr : Trace) :
  let after := apply_update state (fst (analyze_request_node env state tr)) in
  snd (analyze_request_node env state tr)
  = (tr ++ [LlmInvoke [HumanMessage (intent_prompt env state)]])%list
  /\ (exists t, In t AnalysisType.all_types /\ analysis_type after = Some t)
  /\ (forall content,
        llm env tr [HumanMessage (intent_prompt env state)] = Ok content ->
        error after = None
        /\ (In (Py.lower (Py.strip content)) AnalysisType.all_types ->
            analysis_type after = Some (Py.lower (Py.strip content)))
        /\ (~ In (Py.lower (Py.strip content)) AnalysisType.all_types ->
            analysis_type after = Some AnalysisType.GENERAL_QUERY))
  /\ (forall e,
        llm env tr [HumanMessage (intent_prompt env state)] = Raise e ->
        error after = Some ("Intent analysis error: " ++ e)
        /\ analysis_type after = Some AnalysisType.GENERAL_QUERY).
Proof.
  unfold analyze_request_node, bind, ret, llm_invoke, call.
  fold (intent_prompt env state). cbn [fst snd].
  destruct (llm env tr [HumanMessage (intent_prompt env state)])
    as [content|e].
  - destruct (Py.mem (Py.lower (Py.strip content)) AnalysisType.all_types)
      eqn:E; cbn [negb]; conjs; try reflexivity.
    + apply mem_iff in E. eexists. split; [exact E | reflexivity].
    + intros c [= <-]. conjs; [reflexivity | reflexivity |].
      intros N. elim N. now apply mem_iff.
    + intros e H. discriminate.
    + exists AnalysisType.GENERAL_QUERY. split; [|reflexivity].
      do 4 right. now left.
    + intros c [= <-]. conjs; [reflexivity | | reflexivity].
      intros N. apply mem_iff in N. congruence.
    + intros e H. discriminate.
  - conjs; try reflexivity.
    + exists AnalysisType.GENERAL_QUERY. split; [|reflexivity].
      do 4 right. now left.
    + intros c H. discriminate.
    + intros e' [= <-]. now split.
Qed.

(** X5.  The intent step recognises an analysis type in any mix of upper
    and lower case and with blanks around it. *)
Theorem analyze_request_node_normalises (state : AgentState) (tr : Trace)
    (t v a b : string) :
  In t AnalysisType.all_types -> Py.lower v = t ->
  all_space a = true -> all_space b = true ->
  llm env tr [HumanMessage (intent_prompt env state)] = Ok (a ++ v ++ b) ->
  analysis_type
    (apply_update state (fst (analyze_request_node env state tr)))
  = Some t.
Proof.
  intros Ht Hv Ha Hb Hllm.
  assert (Hn : no_space v = true).
  { rewrite <- no_space_lower, Hv.
    repeat (destruct Ht as [<- | Ht]; [reflexivity|]). now elim Ht. }
  unfold analyze_request_node, bind, ret, llm_invoke, call.
  fold (intent_prompt env state). rewrite Hllm. cbn [fst].
  rewrite (strip_pad _ _ _ Ha Hb), (strip_no_space _ Hn), Hv.
  rewrite (proj2 (mem_iff _ _) Ht). reflexivity.
Qed.

(** The generation step, taken apart: without a schema and without a
    client it returns at once; otherwise it calls the backend once, after
    the catalogue when no schema was cached. *)
Lemma generate_sql_node_cases (state : AgentState) (tr : Trace) :
  (truthy_schema (schema_context state) = false
   /\ _bq_client env = None
   /\ exists e, generate_sql_node env state tr
                = (with_sql_query None
                     (with_error (Some ("Schema retrieval error: " ++ e))
                        no_update), tr))
  \/ (exists sc tr0,
        sc <> []
        /\ ((schema_context state = Some sc /\ tr0 = tr)
            \/ (truthy_schema (schema_context state) = false
                /\ tr0 = (tr ++ map GetTableSchema main_tables)%list))
        /\ generate_sql_node env state tr
           = (match llm env tr0
                      [HumanMessage (generation_prompt env state sc)] with
              | Ok content =>
                  match validate_sql_query (strip_code_fence content) with
                  | (false, validation_error) =>
                      with_sql_query (Some (strip_code_fence content))
                        (with_error
                           (Some ("Invalid SQL: " ++ str_of validation_error))
                           no_update)
                  | (true, _) =>
                      with_error None
                        (with_schema_context (Some sc)
                           (with_sql_query (Some (strip_code_fence content))
                              no_update))
                  end
              | Raise e =>
                  with_sql_query None
                    (with_error (Some ("SQL generation error: " ++ e))
                       no_update)
              end,
              (tr0 ++ [LlmInvoke
                         [HumanMessage (generation_prompt env state sc)]])%list)).
Proof.
  assert (P : forall sc,
             (if truthy (if truthy (error state) then sql_query state
                         else None)
                 && truthy (if truthy (if truthy (error state)
                                       then sql_query state else None)
                            then error state else None)
              then ERROR_RECOVERY_PROMPT env
                     (str_of (if truthy (if truthy (error state)
                                         then sql_query state else None)
                              then error state else None))
                     (str_of (if truthy (error state) then sql_query state
                              else None))
                     (user_query state)
              else SQL_GENERATION_PROMPT env (get_schema_context_string sc)
                     (user_query state) (str_of (analysis_type state)))
             = generation_prompt env state sc).
  { intros sc. unfold generation_prompt, recovery_mode.
    destruct (error state) as [[|c e]|]; destruct (sql_query state)
      as [[|d q]|]; reflexivity. }
  assert (Fetch : truthy_schema (schema_context state) = false ->
                  generate_sql_node env state tr
                  = bind (get_all_table_schemas env)
                      (fun fetched =>
                         match fetched with
                         | Raise e =>
                             ret (with_sql_query None
                                    (with_error
                                       (Some ("Schema retrieval error: " ++ e))
                                       no_update))
                         | Ok sc =>
                             bind (llm_invoke env
                                     [HumanMessage
                                        (generation_prompt env state sc)])
                               (fun r =>
                                  ret match r with
                                      | Ok content =>
                                          match validate_sql_query
                                                  (strip_code_fence content)
                                          with
                                          | (false, validation_error) =>
                                              with_sql_query
                                                (Some (strip_code_fence content))
                                                (with_error
                                                   (Some ("Invalid SQL: "
                                                          ++ str_of
                                                               validation_error))
                                                   no_update)
                                          | (true, _) =>
                                              with_error None
                                                (with_schema_context (Some sc)
                                                   (with_sql_query
                                                      (Some (strip_code_fence
                                                               content))
                                                      no_update))
                                          end
                                      | Raise e =>
                                          with_sql_query None
                                            (with_error
                                               (Some ("SQL generation error: "
                                                      ++ e)) no_update)
                                      end)
                         end) tr).
  { intros Hc. unfold generate_sql_node.
    destruct (schema_context state) as [[|x sc]|]; try discriminate;
      unfold bind; destruct (get_all_table_schemas env tr) as [[sc'|e] tr0];
      try reflexivity; now rewrite P. }
  destruct (truthy_schema (schema_context state)) eqn:C.
  - right. destruct (schema_context state) as [[|x sc]|] eqn:S;
      try discriminate.
    exists (x :: sc), tr. conjs; [discriminate | now left |].
    unfold generate_sql_node. rewrite S.
    unfold bind, ret, llm_invoke, call. rewrite P.
    now destruct (llm env tr _).
  - rewrite (Fetch eq_refl).
    destruct (get_all_table_schemas_cases env tr) as [Hsome Hnone].
    destruct (_bq_client env) as [client|] eqn:B.
    + right. destruct (Hsome client eq_refl) as (sc & E & Hk & Hne & _).
      exists sc, (tr ++ map GetTableSchema main_tables)%list.
      conjs; [destruct sc; [discriminate | discriminate] | now right |].
      unfold bind. rewrite E. unfold ret, llm_invoke, call.
      now destruct (llm env _ _).
    + left. destruct (Hnone eq_refl) as [e E].
      conjs; [reflexivity | reflexivity |]. exists e.
      unfold bind. now rewrite E.
Qed.

Lemma validate_true_none (s : string) :
  fst (validate_sql_query s) = true -> validate_sql_query s = (true, None).
Proof.
  intros H. destruct (validate_sql_query s) as [ok [r|]] eqn:E;
    cbn [fst] in H; subst ok; [|reflexivity].
  assert (F : fst (validate_sql_query s) = false)
    by (apply validate_flag_reason; exists r; now rewrite E).
  rewrite E in F. discriminate.
Qed.

(** X6.  When the generation step returns with [error] cleared, the query
    it stores is trimmed, begins with select in some case and passed the
    validator, and the schema it stores is not empty. *)
Theorem generate_sql_node_success (state : AgentState) (tr tr' : Trace)
    (u : Update) :
  generate_sql_node env state tr = (u, tr') ->
  u_error u = Some None ->
  exists q sc,
    u = with_error None
          (with_schema_context (Some sc) (with_sql_query (Some q) no_update))
    /\ validate_sql_query q = (true, None)
    /\ Py.strip q = q
    /\ begins_with (Py.lower q) "select"
    /\ truthy_schema (Some sc) = true.
Proof.
  intros G Hu.
  destruct (generate_sql_node_cases state tr)
    as [(_ & _ & e & E) | (sc & tr0 & Hsc & _ & E)];
    rewrite E in G; injection G as <- _; [discriminate|].
  destruct (llm env tr0 _) as [content|e]; [|discriminate].
  destruct (validate_sql_query (strip_code_fence content)) as [[|] r] eqn:V;
    [|discriminate].
  assert (V' : validate_sql_query (strip_code_fence content) = (true, None))
    by (apply validate_true_none; now rewrite V).
  exists (strip_code_fence content), sc. conjs.
  - reflexivity.
  - exact V'.
  - apply strip_code_fence_trimmed_eq.
  - apply validate_accepts in V'. destruct V' as (_ & B & _).
    now rewrite <- lower_strip, strip_code_fence_trimmed_eq in B.
  - destruct sc; [now elim Hsc | reflexivity].
Qed.

Lemma generate_sql_node_events (state : AgentState) (tr : Trace) :
  exists evs,
    snd (generate_sql_node env state tr) = (tr ++ evs)%list
    /\ executed evs = []
    /\ List.length (filter is_llm_invoke evs) <= 1
    /\ (forall messages, In (LlmInvoke messages) evs ->
        (recovery_mode state = true ->
         messages
         = [HumanMessage
              (ERROR_RECOVERY_PROMPT env (str_of (error state))
                 (str_of (sql_query state)) (user_query state))])
        /\ (recovery_mode state = false ->
            exists sc,
              messages
              = [HumanMessage
                   (SQL_GENERATION_PROMPT env (get_schema_context_string sc)
                      (user_query state) (str_of (analysis_type state)))])).
Proof.
  assert (T : forall l, executed (map GetTableSchema l) = []
                        /\ filter is_llm_invoke (map GetTableSchema l) = []
                        /\ forall m, ~ In (LlmInvoke m) (map GetTableSchema l)).
  { induction l as [|x l (IH1 & IH2 & IH3)]; [now conjs|].
    conjs; [exact IH1 | exact IH2 |].
    intros m [H|H]; [discriminate | now apply (IH3 m)]. }
  assert (P : forall sc messages,
             messages = [HumanMessage (generation_prompt env state sc)] ->
             (recovery_mode state = true ->
              messages
              = [HumanMessage
                   (ERROR_RECOVERY_PROMPT env (str_of (error state))
                      (str_of (sql_query state)) (user_query state))])
             /\ (recovery_mode state = false ->
                 exists sc',
                   messages
                   = [HumanMessage
                        (SQL_GENERATION_PROMPT env
                           (get_schema_context_string sc')
                           (user_query state)
                           (str_of (analysis_type state)))])).
  { intros sc m ->. unfold generation_prompt.
    split; intros ->; [reflexivity | now exists sc]. }
  destruct (generate_sql_node_cases state tr)
    as [(_ & _ & e & E) | (sc & tr0 & _ & [[_ ->] | [_ ->]] & E)];
    rewrite E; cbn [snd].
  - exists []. rewrite app_nil_r. conjs; [reflexivity.. | cbn; lia |].
    intros m [].
  - exists [LlmInvoke [HumanMessage (generation_prompt env state sc)]].
    conjs; [reflexivity | reflexivity | cbn; lia |].
    intros m [[= <-] | []]. now apply (P sc).
  - exists (map GetTableSchema main_tables
            ++ [LlmInvoke [HumanMessage (generation_prompt env state sc)]])%list.
    conjs; [now rewrite app_assoc | reflexivity | cbn; lia |].
    intros m H. apply in_app_or in H. destruct H as [H | [[= <-] | []]].
    + now apply (proj2 (proj2 (T main_tables))) in H.
    + now apply (P sc).
Qed.

(** X7.  The generation step calls the backend at most once and never the
    warehouse.  The prompt of that call is the recovery prompt, built from
    [error], [sql_query] and [user_query], exactly when [error] and
    [sql_query] both hold a non-empty text; in every other state, also one
    with an error but no query, it is the normal prompt. *)
Theorem generate_sql_node_prompt (state : AgentState) (tr : Trace) :
  exists evs,
    snd (generate_sql_node env state tr) = (tr ++ evs)%list
    /\ executed evs = []
    /\ List.length (filter is_llm_invoke evs) <= 1
    /\ (forall messages, In (LlmInvoke messages) evs ->
        (recovery_mode state = true ->
         messages
         = [HumanMessage
              (ERROR_RECOVERY_PROMPT env (str_of (error state))
                 (str_of (sql_query state)) (user_query state))])
        /\ (recovery_mode state = false ->
            exists sc,
              messages
              = [HumanMessage
                   (SQL_GENERATION_PROMPT env (get_schema_context_string sc)
                      (user_query state) (str_of (analysis_type state)))])).
Proof. apply generate_sql_node_events. Qed.

End IntentAndGeneration.

(** X5 on the answer "  Sales_Trends" followed by a line feed. *)
Lemma analyze_request_node_normalises_witness :
  analysis_type
    (apply_update (initial_state "q")
       (fst (analyze_request_node shouting_env (initial_state "q") [])))
  = Some "sales_trends".
Proof.
  apply (analyze_request_node_normalises shouting_env (initial_state "q") []
           "sales_trends" "Sales_Trends" "  " Py.nl).
  - do 2 right. now left.
  - reflexivity.
  - reflexivity.
  - reflexivity.
  - reflexivity.
Defined.

(** X6 on the first SQL answer of a scripted backend. *)
Lemma generate_sql_node_success_witness :
  exists q sc,
    fst (generate_sql_node one_failure_env (initial_state "q")
           [LlmInvoke []])
    = with_error None
        (with_schema_context (Some sc) (with_sql_query (Some q) no_update))
    /\ validate_sql_query q = (true, None).
Proof.
  destruct (generate_sql_node one_failure_env (initial_state "q")
              [LlmInvoke []]) as [u tr'] eqn:G.
  destruct (generate_sql_node_success one_failure_env _ _ _ _ G)
    as (q & sc & E & V & _).
  - assert (G' := G). vm_compute in G'. injection G' as <- _. reflexivity.
  - exists q, sc. split; [exact E | exact V].
Defined.

(* ===================================================================== *)
(** ** Calls to the warehouse *)
(* ===================================================================== *)

Section WarehouseCalls.

Variable env : Env.

Lemma run_node_executed (n : Node.t) (state : AgentState) (tr : Trace) :
  executed (snd (run_node env n state tr))
  = (executed tr ++ sent_to_warehouse env n state)%list.
Proof.
  destruct n; unfold run_node, bind, ret.
  - unfold analyze_request_node, bind, ret, llm_invoke, call. cbn [snd].
    now rewrite executed_app.
  - destruct (generate_sql_node_events env state tr) as (evs & E & X & _).
    destruct (generate_sql_node env state tr) as [u tr1]. cbn [snd] in *.
    subst tr1. now rewrite executed_app, X.
  - unfold execute_query_node, sent_to_warehouse.
    destruct (sql_query state) as [[|c q]|]; cbn [snd ret];
      try (destruct (_bq_client env); now rewrite app_nil_r).
    unfold execute_query_direct, get_bigquery_client, bind, call, ret.
    destruct (_bq_client env) as [client|]; cbn [snd].
    + destruct (execute_query client tr (String c q)); cbn [snd];
        now rewrite executed_app.
    + now rewrite app_nil_r.
  - unfold analyze_results_node, sent_to_warehouse.
    destruct (query_results state) as [df|];
      [|cbn; now rewrite app_nil_r].
    destruct (df_empty df); [cbn; now rewrite app_nil_r|].
    unfold bind, ret, llm_invoke, call. cbn [snd].
    rewrite executed_app. reflexivity.
  - cbn. now rewrite app_nil_r.
Qed.

(** X8.  SQL reaches the warehouse from one step only: the execution step
    sends the non-empty [sql_query] of the state, once, when a client is
    there, whatever [error] says; with an empty or absent query or without
    a client it sends nothing; no other step sends anything. *)
Theorem only_execute_query_node_sends (n : Node.t) (state : AgentState)
    (tr : Trace) :
  executed (snd (run_node env n state tr))
  = (executed tr
     ++ match n, sql_query state, _bq_client env with
        | Node.execute_query, Some q, Some _ =>
            if Py.nonempty q then [q] else []
        | _, _, _ => []
        end)%list.
Proof.
  rewrite run_node_executed. f_equal. unfold sent_to_warehouse.
  destruct n; try reflexivity.
  destruct (sql_query state) as [[|c q]|]; destruct (_bq_client env);
    reflexivity.
Qed.

(** X9.  Without an initialised client the execution step does not reach
    the warehouse, reports "BigQuery client not initialized" as an
    execution error and still counts a retry; the generation step without a
    cached schema returns a schema error, with [sql_query] absent, before any
    call to the backend. *)
Theorem steps_without_client (state : AgentState) (tr : Trace) :
  _bq_client env = None ->
  (forall q, sql_query state = Some q -> q <> "" ->
     execute_query_node env state tr
     = (with_retry_count (retry_count state + 1)%Z
          (with_query_results None
             (with_error
                (Some "Query execution error: BigQuery client not initialized. Call initialize_bigquery_client() first.")
                no_update)),
        tr))
  /\ (truthy_schema (schema_context state) = false ->
      generate_sql_node env state tr
      = (with_sql_query None
           (with_error
              (Some "Schema retrieval error: BigQuery client not initialized. Call initialize_bigquery_client() first.")
              no_update),
         tr)).
Proof.
  intros Hc. split.
  - intros q Hq Hne. unfold execute_query_node. rewrite Hq.
    destruct q as [|c q]; [now elim Hne|].
    unfold execute_query_direct, get_bigquery_client. now rewrite Hc.
  - intros Hs. unfold generate_sql_node, get_all_table_schemas,
      get_bigquery_client. rewrite Hc.
    destruct (schema_context state) as [[|x sc]|]; try discriminate;
      reflexivity.
Qed.

End WarehouseCalls.

(* ===================================================================== *)
(** ** The analysis step and the response *)
(* ===================================================================== *)

Lemma occurs_in_refl (x : string) : occurs_in x x.
Proof. exists "", "". cbn [append]. now rewrite append_nil_r. Qed.

Lemma occurs_in_app_l (x s t : string) : occurs_in x t -> occurs_in x (s ++ t).
Proof.
  intros (pre & post & ->). exists (s ++ pre), post.
  now rewrite append_assoc.
Qed.

Lemma occurs_in_app_r (x s t : string) : occurs_in x s -> occurs_in x (s ++ t).
Proof.
  intros (pre & post & ->). exists pre, (post ++ t).
  now rewrite !append_assoc.
Qed.

Lemma app_nonempty_l (s t : string) : s <> "" -> s ++ t <> "".
Proof. destruct s; [intros H; now elim H | discriminate]. Qed.

Lemma app_nonempty_r (s t : string) : t <> "" -> s ++ t <> "".
Proof.
  intros H E. destruct s; [now elim H | discriminate].
Qed.

(** Find [x] in a concatenation that mentions it. *)
Ltac occ :=
  first [ apply occurs_in_refl
        | apply occurs_in_app_r; occ
        | apply occurs_in_app_l; occ ].

(** Take [respond_node] apart by the truth values it tests. *)
Ltac respond_cases state He Hi Hr Hd :=
  unfold respond_node;
  destruct (error state) as [[|? ?]|] eqn:He;
  destruct (insights state) as [[|? ?]|] eqn:Hi;
  cbn [truthy Py.nonempty andb negb str_of];
  (destruct (query_results state) as [?df|] eqn:Hr;
   [destruct (df_empty df) eqn:Hd|]); cbn [negb].

(** X10.  The respond step raises exactly when the state carries neither
    an error text nor insights: [error] is absent or empty and [insights]
    is absent.  In every other state it returns one assistant message. *)
Theorem respond_node_raises_iff (state : AgentState) :
  ((exists msg, respond_node state = Raise msg)
   <-> truthy (error state) = false /\ insights state = None)
  /\ ((exists content,
         respond_node state
         = Ok (with_messages [AIMessage content] no_update))
      <-> truthy (error state) = true \/ insights state <> None).
Proof.
  respond_cases state He Hi Hr Hd;
    (split; split;
     [ intros [msg H]; first [discriminate H | now split]
     | intros [H1 H2]; first [discriminate | eexists; reflexivity]
     | intros [content H];
       first [discriminate H | now left | right; discriminate]
     | intros [H | H];
       first [discriminate H | now elim H | eexists; reflexivity] ]).
Qed.

(** X11.  In the message of the respond step a non-empty error text always
    occurs, non-empty insights always occur, and a result with at least one
    row and one column always puts the line "Data Summary: N rows analyzed",
    with N the number of rows, at the end. *)
Theorem respond_node_content (state : AgentState) (u : Update) :
  respond_node state = Ok u ->
  exists content,
    u = with_messages [AIMessage content] no_update
    /\ (forall e, error state = Some e -> e <> "" -> occurs_in e content)
    /\ (forall i, insights state = Some i -> i <> "" -> occurs_in i content)
    /\ (forall df, query_results state = Some df -> df_empty df = false ->
        exists body,
          content = body ++ Py.nl ++ Py.nl ++ "---" ++ Py.nl
                    ++ "Data Summary: " ++ Py.str_of_nat (df_len df)
                    ++ " rows analyzed").
Proof.
  respond_cases state He Hi Hr Hd; intros H; try discriminate H;
    match type of H with
    | Ok (with_messages [AIMessage ?content] _) = _ => exists content
    end;
    (split; [now injection H as <-|]);
    (split;
     [ intros x E Hne;
       first [discriminate E
             | injection E as <-; first [now elim Hne | occ]]
     | split;
       [ intros x E Hne;
         first [discriminate E
               | injection E as <-; first [now elim Hne | occ]]
       | intros x E Hd';
         first [discriminate E
               | injection E as <-;
                 first [congruence | eexists; reflexivity]] ] ]).
Qed.

Lemma occurs_in_join (sep x : string) (l : list string) :
  In x l -> occurs_in x (Py.join sep l).
Proof.
  induction l as [|y l IH]; [intros []|].
  intros [-> | H]; cbn [Py.join]; destruct l as [|z l].
  - apply occurs_in_refl.
  - occ.
  - destruct H.
  - apply occurs_in_app_l, occurs_in_app_l. now apply IH.
Qed.

Section Response.

Variable env : Env.

(** X12.  When the backend fails on a result with data, the analysis step
    still returns insights: a text that names the number of rows and every
    column; it records the failure in [error], and the respond step then
    answers with these insights, a note with the failure and the data
    summary. *)
Theorem analyze_results_node_fallback (state : AgentState) (tr : Trace)
    (df : DataFrame) (e : string) :
  query_results state = Some df -> df_empty df = false ->
  llm env tr [HumanMessage (insight_prompt env state df)] = Raise e ->
  let after := apply_update state (fst (analyze_results_node env state tr)) in
  error after = Some ("Insight generation error: " ++ e)
  /\ exists i,
       insights after = Some i
       /\ occurs_in (Py.str_of_nat (df_len df)) i
       /\ (forall col, In col (columns df) -> occurs_in col i)
       /\ respond_node after
          = Ok (with_messages
                  [AIMessage
                     ((i ++ Py.nl ++ Py.nl
                       ++ "(Note: There was a minor issue: "
                       ++ "Insight generation error: " ++ e ++ ")")
                      ++ data_summary df)]
                  no_update).
Proof.
  intros Hr Hd Hllm. unfold analyze_results_node. rewrite Hr, Hd.
  unfold bind, ret, llm_invoke, call. fold (insight_prompt env state df).
  rewrite Hllm. cbn [fst]. split; [reflexivity|].
  eexists. split; [reflexivity|]. conjs.
  - occ.
  - intros col Hin. apply occurs_in_app_l, occurs_in_app_l, occurs_in_app_l.
    apply occurs_in_app_l, occurs_in_app_r. now apply occurs_in_join.
  - unfold respond_node, apply_update.
    cbn [error insights query_results last_value u_error u_insights
         u_query_results with_error with_insights no_update].
    rewrite Hr, Hd. reflexivity.
Qed.

Lemma analyze_results_ready (state : AgentState) (tr : Trace) :
  respond_nonempty
    (apply_update state (fst (analyze_results_node env state tr))).
Proof.
  unfold analyze_results_node.
  destruct (query_results state) as [df|] eqn:Hr.
  - destruct (df_empty df) eqn:Hd.
    + right. eexists. split; [reflexivity|]. left. discriminate.
    + unfold bind, ret, llm_invoke, call. cbn [fst].
      destruct (llm env tr _) as [content|e].
      * right. eexists. split; [reflexivity|]. right.
        unfold has_data, apply_update. cbn [query_results last_value
          u_query_results with_error with_insights no_update].
        now rewrite Hr, Hd.
      * now left.
  - right. eexists. split; [reflexivity|]. left. discriminate.
Qed.

End Response.

Section ResponseText.

Lemma respond_nonempty_content (state : AgentState) :
  respond_nonempty state ->
  exists content,
    respond_node state = Ok (with_messages [AIMessage content] no_update)
    /\ content <> "".
Proof.
  unfold respond_nonempty, has_data. respond_cases state He Hi Hr Hd;
    intros R;
    try (destruct R as [R | (i & [= <-] & [R | R])];
         first [discriminate R | now elim R]);
    try (destruct R as [R | (i & [=] & _)]; discriminate R);
    (eexists; split; [reflexivity|]);
    cbn [append]; unfold Py.nl; cbn [append]; discriminate.
Qed.

Lemma route_respond_error (state : AgentState) :
  route_after_execution state = Node.respond ->
  truthy (error state) = true.
Proof.
  rewrite route_unfold. destruct (should_retry_query state); [discriminate|].
  destruct (query_results state); [discriminate|].
  now destruct (truthy (error state)).
Qed.

End ResponseText.

(** X11 on a state with an error and three rows. *)
Lemma respond_node_content_witness :
  exists content,
    respond_node (probe_state (Some "boom") 2 (Some three_rows))
    = Ok (with_messages [AIMessage content] no_update)
    /\ occurs_in "boom" content.
Proof.
  destruct (respond_node (probe_state (Some "boom") 2 (Some three_rows)))
    as [u|msg] eqn:E; [|discriminate E].
  destruct (respond_node_content _ _ E) as (content & -> & He & _).
  exists content. split; [reflexivity|].
  apply He; [reflexivity | discriminate].
Defined.

(** X12 on a run whose query succeeds and whose insights fail. *)
Lemma analyze_results_node_fallback_witness :
  error
    (apply_update
       (apply_update (probe_state None 0 (Some three_rows))
          (with_sql_query (Some "SELECT 1") no_update))
       (fst (analyze_results_node silent_env
               (apply_update (probe_state None 0 (Some three_rows))
                  (with_sql_query (Some "SELECT 1") no_update)) [])))
  = Some "Insight generation error: no answer left".
Proof.
  apply (analyze_results_node_fallback silent_env
           (apply_update (probe_state None 0 (Some three_rows))
              (with_sql_query (Some "SELECT 1") no_update))
           [] three_rows "no answer left"); reflexivity.
Defined.

(* ===================================================================== *)
(** ** Whole runs *)
(* ===================================================================== *)

Section Runs.

Variable env : Env.

Lemma run_node_ok (n : Node.t) (state : AgentState) (tr : Trace) :
  n <> Node.respond ->
  exists u tr1, run_node env n state tr = (Ok u, tr1).
Proof.
  intros Hn. destruct n; [| | | |now elim Hn]; unfold run_node, bind, ret.
  - destruct (analyze_request_node env state tr); now eexists _, _.
  - destruct (generate_sql_node env state tr); now eexists _, _.
  - destruct (execute_query_node env state tr); now eexists _, _.
  - destruct (analyze_results_node env state tr); now eexists _, _.
Qed.

Lemma run_node_analyze_results (state : AgentState) (tr tr1 : Trace)
    (u : Update) :
  run_node env Node.analyze_results state tr = (Ok u, tr1) ->
  u = fst (analyze_results_node env state tr).
Proof.
  unfold run_node, bind, ret.
  destruct (analyze_results_node env state tr). now intros [= <- _].
Qed.

Lemma next_node_ready (n n' : Node.t) (state : AgentState) (tr tr1 : Trace)
    (u : Update) :
  run_node env n state tr = (Ok u, tr1) ->
  next_node n (apply_update state u) = Some n' ->
  n' = Node.respond -> respond_nonempty (apply_update state u).
Proof.
  intros R N ->. destruct n; cbn [next_node] in N; try discriminate.
  - injection N as N. left. now apply route_respond_error.
  - apply run_node_analyze_results in R. subst u.
    apply analyze_results_ready.
Qed.

Lemma graph_run_outcome (limit : nat) :
  forall (n : Node.t) (state : AgentState) (tr : Trace),
    (n = Node.respond -> respond_nonempty state) ->
    match fst (graph_run env limit n state tr) with
    | Finished final =>
        exists content,
          messages final = (messages state ++ [AIMessage content])%list
          /\ content <> ""
    | Raised _ => False
    | RecursionLimit => True
    end.
Proof.
  induction limit as [|limit IH]; intros n state tr Hn; [exact I|].
  cbn [graph_run]. unfold bind.
  assert (D : n = Node.respond \/ n <> Node.respond)
    by (destruct n; (now left) || (right; discriminate)).
  destruct D as [-> | Hne].
  - destruct (respond_nonempty_content state (Hn eq_refl))
      as (content & E & Hc).
    unfold run_node, ret. rewrite E. cbn [next_node fst].
    destruct limit; [exact I|]. cbn [at_end].
    exists content. split; [|exact Hc]. now rewrite apply_update_messages.
  - destruct (run_node_ok n state tr Hne) as (u & tr1 & R). rewrite R.
    pose proof (run_node_messages env n state tr tr1 u Hne R) as Hu.
    assert (Hs : messages (apply_update state u) = messages state)
      by (rewrite apply_update_messages, Hu; apply app_nil_r).
    destruct (next_node n (apply_update state u)) as [n'|] eqn:N;
      [|destruct n; try discriminate; now elim Hne].
    specialize (IH n' (apply_update state u) tr1
                  (next_node_ready n n' state tr tr1 u R N)).
    rewrite Hs in IH. exact IH.
Qed.

(** X13.  A run of the graph never ends in an exception of a step: it
    finishes or it stops at the recursion limit.  When it finishes, the
    conversation has gained one assistant message, and its text is not
    empty. *)
Theorem graph_invoke_outcome (limit : nat) (state : AgentState) (tr : Trace) :
  (forall msg, fst (graph_invoke env limit state tr) <> Raised msg)
  /\ (forall final,
        fst (graph_invoke env limit state tr) = Finished final ->
        exists content,
          messages final = (messages state ++ [AIMessage content])%list
          /\ content <> "").
Proof.
  pose proof (graph_run_outcome limit Node.analyze_request state tr) as H.
  unfold graph_invoke.
  destruct (fst (graph_run env limit Node.analyze_request state tr));
    split; try discriminate; intros x E; try discriminate.
  - injection E as <-. apply H. discriminate.
  - exfalso. apply H. discriminate.
Qed.

(** *** The number of warehouse calls *)

Lemma run_node_retry_count (n : Node.t) (state : AgentState)
    (tr tr1 : Trace) (u : Update) :
  n <> Node.execute_query ->
  run_node env n state tr = (Ok u, tr1) ->
  retry_count (apply_update state u) = retry_count state.
Proof.
  intros Hn R.
  assert (U : u_retry_count u = None).
  { destruct n; [| |now elim Hn| |]; unfold run_node, bind, ret in R.
    - unfold analyze_request_node, bind, ret, llm_invoke, call in R.
      injection R as <- _. now destruct (llm env tr _).
    - destruct (generate_sql_node_cases env state tr)
        as [(_ & _ & e & E) | (sc & tr0 & _ & _ & E)];
        rewrite E in R; injection R as <- _; [reflexivity|].
      destruct (llm env tr0 _) as [content|e]; [|reflexivity].
      now destruct (validate_sql_query (strip_code_fence content))
        as [[|] r].
    - destruct (analyze_results_node env state tr) as [u' tr'] eqn:A.
      injection R as <- _. unfold analyze_results_node in A.
      destruct (query_results state) as [df|];
        [|injection A as <- _; reflexivity].
      destruct (df_empty df); [injection A as <- _; reflexivity|].
      unfold bind, ret, llm_invoke, call in A. injection A as <- _.
      now destruct (llm env tr _).
    - injection R as R _. unfold respond_node in R.
      destruct (if truthy (error state) && negb (truthy (insights state))
                then _ else _) as [content|];
        destruct (match query_results state with
                  | Some _ => _ | None => _ end) as [suffix|];
        try discriminate; now injection R as <-. }
  unfold apply_update. cbn [retry_count]. now rewrite U.
Qed.

Lemma route_calls_left (state : AgentState) :
  calls_left (route_after_execution state) state
  <= Z.to_nat (Z.max 1 (2 - retry_count state))
  /\ (truthy (error state) = false \/ (2 <= retry_count state)%Z ->
      calls_left (route_after_execution state) state = 0).
Proof.
  rewrite route_unfold.
  destruct (should_retry_query state) eqn:R.
  - apply should_retry_query_iff in R.
    destruct R as (e & He & Hne & Hlt & _). split; [cbn; lia|].
    intros [T | G]; [|lia].
    assert (truthy (error state) = true)
      by (apply truthy_iff; now exists e).
    congruence.
  - destruct (query_results state); [cbn; split; [lia | reflexivity]|].
    destruct (truthy (error state)); cbn; split; (lia || reflexivity).
Qed.

Lemma execute_step_budget (state : AgentState) (tr : Trace) :
  let after := apply_update state (fst (execute_query_node env state tr)) in
  List.length (sent_to_warehouse env Node.execute_query state)
  + calls_left (route_after_execution after) after
  <= calls_left Node.execute_query state.
Proof.
  cbv zeta. unfold execute_query_node, sent_to_warehouse.
  destruct (sql_query state) as [[|c q]|] eqn:Hq.
  - cbn [fst ret].
    destruct (route_calls_left (apply_update state no_query_update))
      as [H _].
    change (retry_count (apply_update state no_query_update))
      with (retry_count state) in H.
    fold no_query_update. destruct (_bq_client env); cbn [List.length];
      unfold calls_left at 2; lia.
  - unfold execute_query_direct, get_bigquery_client, bind, call, ret.
    destruct (_bq_client env) as [client|]; cbn [fst List.length].
    + destruct (execute_query client tr (String c q)) as [df|e]; cbn [fst].
      * match goal with
        | |- context [route_after_execution ?s] =>
            destruct (route_calls_left s) as [_ H]
        end.
        rewrite H by (now left). unfold calls_left. lia.
      * match goal with
        | |- context [route_after_execution ?s] =>
            destruct (route_calls_left s) as [H1 H2];
            change (retry_count s) with (retry_count state + 1)%Z in *
        end.
        unfold calls_left at 2.
        destruct (Z_lt_le_dec (retry_count state + 1) 2) as [L|G].
        -- lia.
        -- rewrite H2 by (now right). lia.
    + match goal with
      | |- context [route_after_execution ?s] =>
          destruct (route_calls_left s) as [H1 H2];
          change (retry_count s) with (retry_count state + 1)%Z in *
      end.
      unfold calls_left at 2. lia.
  - cbn [fst ret].
    destruct (route_calls_left (apply_update state no_query_update))
      as [H _].
    change (retry_count (apply_update state no_query_update))
      with (retry_count state) in H.
    fold no_query_update. destruct (_bq_client env); cbn [List.length];
      unfold calls_left at 2; lia.
Qed.

Lemma step_budget (n n' : Node.t) (state : AgentState) (tr tr1 : Trace)
    (u : Update) :
  run_node env n state tr = (Ok u, tr1) ->
  next_node n (apply_update state u) = Some n' ->
  List.length (sent_to_warehouse env n state)
  + calls_left n' (apply_update state u)
  <= calls_left n state.
Proof.
  intros R N.
  assert (D : n = Node.execute_query \/ n <> Node.execute_query)
    by (destruct n; (now left) || (right; discriminate)).
  destruct D as [-> | Hn].
  - cbn [next_node] in N. injection N as <-.
    unfold run_node, bind, ret in R.
    pose proof (execute_step_budget state tr) as B. cbv zeta in B.
    destruct (execute_query_node env state tr) as [u' tr'].
    injection R as <- _. exact B.
  - pose proof (run_node_retry_count n state tr tr1 u Hn R) as Hr.
    destruct n; try (now elim Hn); cbn [next_node] in N;
      try discriminate; injection N as <-;
      unfold sent_to_warehouse, calls_left; cbn [List.length];
      rewrite ?Hr; lia.
Qed.

Lemma sent_within_budget (n : Node.t) (state : AgentState) :
  List.length (sent_to_warehouse env n state) <= calls_left n state.
Proof.
  unfold sent_to_warehouse, calls_left.
  destruct n; cbn [List.length]; try lia.
  destruct (sql_query state) as [[|c q]|]; destruct (_bq_client env);
    cbn [List.length]; lia.
Qed.

Lemma graph_run_calls (limit : nat) :
  forall (n : Node.t) (state : AgentState) (tr : Trace),
    List.length (executed (snd (graph_run env limit n state tr)))
    <= List.length (executed tr) + calls_left n state.
Proof.
  induction limit as [|limit IH]; intros n state tr; [cbn; lia|].
  cbn [graph_run]. unfold bind.
  pose proof (run_node_executed env n state tr) as X.
  pose proof (sent_within_budget n state) as S0.
  destruct (run_node env n state tr) as [[u|e] tr1] eqn:R; cbn [snd] in X.
  - destruct (next_node n (apply_update state u)) as [n'|] eqn:N.
    + pose proof (step_budget n n' state tr tr1 u R N) as B.
      pose proof (IH n' (apply_update state u) tr1) as H.
      rewrite X, length_app in H. lia.
    + cbn [snd ret]. rewrite X, length_app. lia.
  - cbn [snd ret]. rewrite X, length_app. lia.
Qed.

(** X14.  A run that starts with a retry count of zero or more sends at
    most two statements to the warehouse, whatever the backend and the
    warehouse answer and whatever the recursion limit is. *)
Theorem at_most_two_warehouse_calls (limit : nat) (state : AgentState)
    (tr : Trace) :
  (0 <= retry_count state)%Z ->
  List.length (executed (snd (graph_invoke env limit state tr)))
  <= List.length (executed tr) + 2.
Proof.
  intros H. unfold graph_invoke.
  pose proof (graph_run_calls limit Node.analyze_request state tr) as B.
  unfold calls_left in B. lia.
Qed.

(** *** A backend that never answers *)

Lemma no_query_retried (state : AgentState) :
  (retry_count state < 2)%Z ->
  route_after_execution (apply_update state no_query_update)
  = Node.generate_sql.
Proof.
  intros H. rewrite route_unfold.
  assert (R : should_retry_query (apply_update state no_query_update) = true).
  { apply should_retry_query_iff. exists "No SQL query to execute".
    conjs; [reflexivity | discriminate | exact H |].
    intros term Hin Hocc. apply contains_lower_iff in Hocc.
    repeat (destruct Hin as [<- | Hin]; [vm_compute in Hocc; discriminate|]).
    exact Hin. }
  now rewrite R.
Qed.

Lemma graph_run_backend_down (limit : nat) :
  backend_down env ->
  forall (n : Node.t) (state : AgentState) (tr : Trace),
    (retry_count state < 2)%Z ->
    n = Node.analyze_request \/ n = Node.generate_sql
    \/ (n = Node.execute_query /\ sql_query state = None) ->
    fst (graph_run env limit n state tr) = RecursionLimit.
Proof.
  intros Down. induction limit as [|limit IH]; intros n state tr Hr Hn;
    [reflexivity|].
  cbn [graph_run]. unfold bind.
  destruct Hn as [-> | [-> | [-> Hq]]].
  - destruct (run_node env Node.analyze_request state tr) as [[u|e] tr1]
      eqn:R; [|destruct (run_node_ok Node.analyze_request state tr)
                 as (u & t & E); [discriminate | congruence]].
    cbn [next_node]. apply IH; [|now right; left].
    rewrite (run_node_retry_count Node.analyze_request _ _ _ _
               ltac:(discriminate) R).
    exact Hr.
  - destruct (run_node env Node.generate_sql state tr) as [[u|e] tr1]
      eqn:R; [|destruct (run_node_ok Node.generate_sql state tr)
                 as (u & t & E); [discriminate | congruence]].
    cbn [next_node]. apply IH.
    + rewrite (run_node_retry_count Node.generate_sql _ _ _ _
                 ltac:(discriminate) R).
      exact Hr.
    + right; right. split; [reflexivity|].
      unfold run_node, bind, ret in R.
      destruct (generate_sql_node_cases env state tr)
        as [(_ & _ & e & E) | (sc & tr0 & _ & _ & E)];
        rewrite E in R; injection R as <- _; [reflexivity|].
      destruct (Down tr0 [HumanMessage (generation_prompt env state sc)])
        as [e E']. now rewrite E'.
  - assert (R : run_node env Node.execute_query state tr
                = (Ok no_query_update, tr))
      by (unfold run_node, bind, ret, execute_query_node; now rewrite Hq).
    rewrite R. cbn [next_node]. rewrite (no_query_retried state Hr).
    apply IH; [exact Hr | now right; left].
Qed.

(** X15.  When the backend fails on every call, a run that starts with a
    retry count below 2 never reaches the end: the execution step without a
    query does not count a retry, the routing sends the run back to the
    generation step every time, and the run stops only at the recursion
    limit, however large. *)
Theorem backend_down_never_finishes (limit : nat) (state : AgentState)
    (tr : Trace) :
  backend_down env -> (retry_count state < 2)%Z ->
  fst (graph_invoke env limit state tr) = RecursionLimit.
Proof.
  intros Down Hr. unfold graph_invoke.
  apply graph_run_backend_down; [exact Down | exact Hr | now left].
Qed.

(** *** What the caller shows *)

(** X16.  Under a recursion limit of at least 1, [run_analysis] followed
    by [get_response_from_state] always gives a text that is not empty:
    after a finished run it is the text of the one message of the respond
    step; when the engine raises at the recursion limit, which it also does
    for a run that needs exactly as many steps as the limit, the state has
    no message and the text is "An error occurred: Agent execution error: "
    with the text of the engine's exception. *)
Theorem run_analysis_response (limit : nat) (recursion_error : string)
    (user_query : string) (tr : Trace) :
  0 < limit ->
  let final := fst (run_analysis env limit recursion_error user_query tr) in
  get_response_from_state final <> ""
  /\ (forall st,
        fst (graph_invoke env limit (initial_state user_query) tr)
        = Finished st ->
        final = st
        /\ messages st = [AIMessage (get_response_from_state st)])
  /\ (fst (graph_invoke env limit (initial_state user_query) tr)
      = RecursionLimit ->
      messages final = []
      /\ get_response_from_state final
         = "An error occurred: Agent execution error: " ++ recursion_error).
Proof.
  intros _. cbv zeta. unfold run_analysis, bind, ret.
  pose proof (graph_run_outcome limit Node.analyze_request
                (initial_state user_query) tr) as H.
  unfold graph_invoke.
  destruct (graph_run env limit Node.analyze_request
              (initial_state user_query) tr) as [[st|msg|] tr1];
    cbn [fst] in *.
  - destruct H as (content & Hm & Hc); [discriminate|].
    cbn [messages initial_state app] in Hm.
    assert (G : get_response_from_state st = content)
      by (unfold get_response_from_state; now rewrite Hm).
    conjs; [now rewrite G | | discriminate].
    intros st' [= <-]. split; [reflexivity | now rewrite G].
  - exfalso. apply H. discriminate.
  - conjs; [discriminate | discriminate |]. intros _. now split.
Qed.

End Runs.

(** X14 on a run with a failed and a successful execution. *)
Lemma at_most_two_warehouse_calls_witness :
  List.length
    (executed (snd (graph_invoke one_failure_env 25 (initial_state "q") [])))
  <= List.length (executed []) + 2.
Proof.
  apply (at_most_two_warehouse_calls one_failure_env 25 (initial_state "q")
           []).
  cbn. lia.
Defined.

Lemma silent_env_down : backend_down silent_env.
Proof.
  intros tr messages. unfold silent_env, scripted_env, scripted_llm.
  cbn [llm]. destruct (List.length (filter is_llm_invoke tr));
    eexists; reflexivity.
Defined.

(** X15 on a backend without answers, at a limit of a thousand steps. *)
Lemma backend_down_never_finishes_witness :
  fst (graph_invoke silent_env 1000 (initial_state "q") []) = RecursionLimit.
Proof.
  apply (backend_down_never_finishes silent_env 1000 (initial_state "q") []).
  - exact silent_env_down.
  - reflexivity.
Defined.

(* ===================================================================== *)
(** ** The retrying client *)
(* ===================================================================== *)

Section RetryingClient.

Context {R : Type}.
Variable client : nat -> Result R.
Variable attempts : Z.

Lemma attempts_loop_calls (remaining : nat) :
  forall (attempt : Z) (last_error : option string) (c : Clock),
    let out := attempts_loop client attempts remaining attempt last_error c in
    (forall x, fst out = Ok x ->
       exists k, k < remaining
                 /\ invoked (snd out) = invoked c + k + 1
                 /\ client (invoked c + k) = Ok x
                 /\ forall j, j < k ->
                      exists e, client (invoked c + j) = Raise e)
    /\ (forall msg, fst out = Raise msg ->
          invoked (snd out) = invoked c + remaining
          /\ (forall j, j < remaining ->
                exists e, client (invoked c + j) = Raise e)
          /\ (0 < remaining ->
              client (invoked c + remaining - 1) = Raise msg)
          /\ (remaining = 0 ->
              msg = match last_error with
                    | Some e => e
                    | None => "exceptions must derive from BaseException"
                    end)).
Proof.
  induction remaining as [|remaining IH]; intros attempt last_error c;
    cbv zeta.
  - cbn [attempts_loop fst snd].
    split; [destruct last_error; discriminate|].
    intros msg H. conjs; [lia | intros j Hj; lia | lia |].
    intros _. destruct last_error; now injection H as <-.
  - cbn [attempts_loop].
    destruct (client (invoked c)) as [response|e] eqn:E.
    + cbn [fst snd tick invoked]. split; [|discriminate].
      intros x [= <-]. exists 0. rewrite Nat.add_0_r.
      conjs; [lia | lia | exact E | intros j Hj; lia].
    + set (c' := if is_rate_limit (Py.lower e)
                 then sleep (Seconds (2 ^ attempt * 1)) (tick c)
                 else if (attempt <? attempts - 1)%Z
                      then sleep HalfSecond (tick c) else tick c).
      assert (Hc : invoked c' = S (invoked c))
        by (unfold c'; destruct (is_rate_limit _);
            [|destruct (_ <? _)%Z]; reflexivity).
      destruct (IH (attempt + 1)%Z (Some e) c') as [Hok Hraise].
      cbv zeta in Hok, Hraise. rewrite Hc in Hok, Hraise. split.
      * intros x Hx. destruct (Hok x Hx) as (k & Hk & Hi & Hcl & Hprev).
        exists (S k). conjs; [lia | lia | |].
        -- now replace (invoked c + S k) with (S (invoked c) + k) by lia.
        -- intros [|j] Hj; [exists e; now rewrite Nat.add_0_r|].
           destruct (Hprev j ltac:(lia)) as [e' He']. exists e'.
           now replace (invoked c + S j) with (S (invoked c) + j) by lia.
      * intros msg Hm.
        destruct (Hraise msg Hm) as (Hi & Hall & Hlast & Hzero).
        conjs; [lia | | |discriminate].
        -- intros [|j] Hj; [exists e; now rewrite Nat.add_0_r|].
           destruct (Hall j ltac:(lia)) as [e' He']. exists e'.
           now replace (invoked c + S j) with (S (invoked c) + j) by lia.
        -- intros _. destruct remaining as [|remaining'].
           ++ rewrite (Hzero eq_refl).
              now replace (invoked c + 1 - 1) with (invoked c) by lia.
           ++ replace (invoked c + S (S remaining') - 1)
                with (S (invoked c) + S remaining' - 1) by lia.
              apply Hlast. lia.
Qed.

Lemma attempts_loop_rate_limited (remaining : nat) :
  forall (attempt : Z) (last_error : option string) (c : Clock),
    (forall j, j < remaining ->
       exists e, client (invoked c + j) = Raise e
                 /\ is_rate_limit (Py.lower e) = true) ->
    slept (snd (attempts_loop client attempts remaining attempt last_error c))
    = (slept c
       ++ map (fun j => Seconds (2 ^ (attempt + Z.of_nat j) * 1))
              (seq 0 remaining))%list.
Proof.
  induction remaining as [|remaining IH]; intros attempt last_error c H.
  - cbn. now rewrite app_nil_r.
  - cbn [attempts_loop].
    destruct (H 0 ltac:(lia)) as (e & E & L). rewrite Nat.add_0_r in E.
    rewrite E, L. rewrite IH.
    + cbn [slept sleep tick seq map]. rewrite <- app_assoc. cbn [app].
      rewrite Z.add_0_r. do 2 f_equal. rewrite <- seq_shift, map_map.
      apply map_ext. intros j. do 3 f_equal. lia.
    + intros j Hj. cbn [invoked sleep tick].
      destruct (H (S j) ltac:(lia)) as (e' & E' & L'). exists e'.
      split; [|exact L'].
      now replace (S (invoked c) + j) with (invoked c + S j) by lia.
Qed.

Lemma attempts_loop_other_errors (remaining : nat) :
  forall (attempt : Z) (last_error : option string) (c : Clock),
    (attempt + Z.of_nat remaining = attempts)%Z ->
    (forall j, j < remaining ->
       exists e, client (invoked c + j) = Raise e
                 /\ is_rate_limit (Py.lower e) = false) ->
    slept (snd (attempts_loop client attempts remaining attempt last_error c))
    = (slept c ++ repeat HalfSecond (remaining - 1))%list.
Proof.
  induction remaining as [|remaining IH]; intros attempt last_error c Ha H.
  - cbn. now rewrite app_nil_r.
  - cbn [attempts_loop].
    destruct (H 0 ltac:(lia)) as (e & E & L). rewrite Nat.add_0_r in E.
    rewrite E, L.
    assert (Hn : forall c', invoked c' = S (invoked c) ->
                 forall j, j < remaining ->
                   exists e', client (invoked c' + j) = Raise e'
                              /\ is_rate_limit (Py.lower e') = false).
    { intros c' Hc' j Hj. destruct (H (S j) ltac:(lia)) as (e' & E' & L').
      exists e'. split; [|exact L'].
      rewrite Hc'. now replace (S (invoked c) + j) with (invoked c + S j)
        by lia. }
    destruct remaining as [|remaining'].
    + replace (attempt <? attempts - 1)%Z with false
        by (symmetry; apply Z.ltb_ge; lia).
      cbn. now rewrite app_nil_r.
    + replace (attempt <? attempts - 1)%Z with true
        by (symmetry; apply Z.ltb_lt; lia).
      rewrite IH; [|lia | now apply Hn].
      cbn [slept sleep tick]. rewrite <- app_assoc.
      replace (S (S remaining') - 1) with (S (S remaining' - 1)) by lia.
      reflexivity.
Qed.

End RetryingClient.

Section RetryingClientSpec.

Context {R : Type}.
Variable max_retries : Z.
Variable client : nat -> Result R.
Variable max_attempts : option Z.

Lemma invoke_with_retry_unfold (c : Clock) :
  exists attempts,
    Z.to_nat attempts = effective_attempts max_retries max_attempts
    /\ invoke_with_retry max_retries client max_attempts c
       = attempts_loop client attempts
           (effective_attempts max_retries max_attempts) 0%Z None c.
Proof.
  unfold invoke_with_retry, effective_attempts.
  destruct max_attempts as [n|]; [destruct (n =? 0)%Z|];
    eexists; split; reflexivity.
Qed.

(** X17.  [invoke_with_retry] invokes the chat model at most as many times
    as there are rounds: [max_attempts], or [max_retries] when
    [max_attempts] is [None] or 0.  A response it returns is the first
    successful one, every earlier invocation having failed; when it raises,
    every round has failed and the exception is that of the last round;
    with no round at all it raises a type error without any invocation. *)
Theorem invoke_with_retry_result (c : Clock) :
  let n := effective_attempts max_retries max_attempts in
  let out := invoke_with_retry max_retries client max_attempts c in
  invoked (snd out) <= invoked c + n
  /\ (forall x, fst out = Ok x ->
        exists k, k < n
                  /\ invoked (snd out) = invoked c + k + 1
                  /\ client (invoked c + k) = Ok x
                  /\ forall j, j < k ->
                       exists e, client (invoked c + j) = Raise e)
  /\ (forall msg, fst out = Raise msg ->
        invoked (snd out) = invoked c + n
        /\ (forall j, j < n -> exists e, client (invoked c + j) = Raise e)
        /\ (0 < n -> client (invoked c + n - 1) = Raise msg)
        /\ (n = 0 -> msg = "exceptions must derive from BaseException")).
Proof.
  cbv zeta. destruct (invoke_with_retry_unfold c) as (attempts & _ & ->).
  destruct (attempts_loop_calls client attempts
              (effective_attempts max_retries max_attempts) 0%Z None c)
    as [Hok Hraise]. cbv zeta in Hok, Hraise.
  conjs; [|exact Hok | exact Hraise].
  destruct (fst (attempts_loop client attempts
                   (effective_attempts max_retries max_attempts)
                   0%Z None c)) as [x|msg] eqn:E.
  - destruct (Hok x eq_refl) as (k & Hk & Hi & _). lia.
  - destruct (Hraise msg eq_refl) as (Hi & _). lia.
Qed.

Lemma seconds_slept_app (l l' : list Sleep) :
  seconds_slept (l ++ l') = (seconds_slept l + seconds_slept l')%Z.
Proof.
  induction l as [|[n|] l IH]; cbn [app seconds_slept]; lia.
Qed.

Lemma seconds_slept_doubling (n : nat) :
  seconds_slept (map (fun j => Seconds (2 ^ Z.of_nat j * 1)) (seq 0 n))
  = (2 ^ Z.of_nat n - 1)%Z.
Proof.
  induction n as [|n IH]; [reflexivity|].
  rewrite seq_S, map_app, seconds_slept_app, IH. cbn [Nat.add map
    seconds_slept].
  rewrite Nat2Z.inj_succ, Z.pow_succ_r by lia. lia.
Qed.

(** X18.  When every round fails with a rate-limit error (a message that
    contains "rate limit", "quota" or "429" in any case),
    [invoke_with_retry] sleeps after every round, also after the last one,
    for 1, 2, 4, ... seconds: 2^n - 1 seconds over n rounds.  When every
    round fails with another error, it sleeps half a second between rounds
    and not after the last: n - 1 times. *)
Theorem invoke_with_retry_backoff (c : Clock) :
  let n := effective_attempts max_retries max_attempts in
  let out := invoke_with_retry max_retries client max_attempts c in
  ((forall j, j < n ->
      exists e, client (invoked c + j) = Raise e
                /\ is_rate_limit (Py.lower e) = true) ->
   slept (snd out)
   = (slept c
      ++ map (fun j => Seconds (2 ^ Z.of_nat j * 1)) (seq 0 n))%list
   /\ seconds_slept (slept (snd out))
      = (seconds_slept (slept c) + (2 ^ Z.of_nat n - 1))%Z)
  /\ ((forall j, j < n ->
         exists e, client (invoked c + j) = Raise e
                   /\ is_rate_limit (Py.lower e) = false) ->
      slept (snd out) = (slept c ++ repeat HalfSecond (n - 1))%list).
Proof.
  cbv zeta. destruct (invoke_with_retry_unfold c) as (attempts & Ha & ->).
  split.
  - intros H.
    rewrite (attempts_loop_rate_limited client attempts _ 0%Z None c H).
    split; [reflexivity|].
    now rewrite seconds_slept_app, seconds_slept_doubling.
  - intros H.
    destruct (effective_attempts max_retries max_attempts) as [|n] eqn:E.
    + cbn. now rewrite app_nil_r.
    + apply attempts_loop_other_errors; [lia | exact H].
Qed.

End RetryingClientSpec.

(** X18 on a model that is always rate-limited and on one that is always
    down, with three rounds each. *)
Lemma invoke_with_retry_backoff_witness :
  slept (snd (invoke_with_retry 3 always_limited None fresh_clock))
  = [Seconds 1; Seconds 2; Seconds 4]
  /\ slept (snd (invoke_with_retry 3 always_down (Some 0%Z) fresh_clock))
     = [HalfSecond; HalfSecond].
Proof.
  split.
  - apply (invoke_with_retry_backoff 3 always_limited None fresh_clock).
    intros j Hj. exists "Quota exceeded". split; reflexivity.
  - apply (invoke_with_retry_backoff 3 always_down (Some 0%Z) fresh_clock).
    intros j Hj. exists "Connection reset". split; reflexivity.
Defined.

(* ===================================================================== *)
(** ** The schema text and the module-level client *)
(* ===================================================================== *)

Section SchemaText.




(** X20.  The module-level client is set once: after a call of
    [initialize_bigquery_client] that built a client, [get_bigquery_client]
    returns that client, and a later call with other arguments returns the
    same client and leaves it in place; when the constructor raises, the
    global stays unset and [get_bigquery_client] raises. *)
Theorem initialize_bigquery_client_once
    (construct : option string -> string -> Result BigQueryRunner)
    (project_id project_id' : option string) (dataset_id dataset_id' : string)
    (env : Env) :
  _bq_client env
  = snd (initialize_bigquery_client construct project_id dataset_id None) ->
  (forall client, construct project_id dataset_id = Ok client ->
     get_bigquery_client env = Ok client
     /\ initialize_bigquery_client construct project_id' dataset_id'
          (_bq_client env)
        = (Ok client, Some client))
  /\ (forall msg, construct project_id dataset_id = Raise msg ->
        fst (initialize_bigquery_client construct project_id dataset_id None)
        = Raise msg
        /\ exists msg', get_bigquery_client env = Raise msg').
Proof.
  unfold initialize_bigquery_client, get_bigquery_client. intros H. split.
  - intros client E. rewrite E in H. cbn [snd] in H. rewrite H. now split.
  - intros msg E. rewrite E in *. cbn [snd fst] in *. rewrite H.
    split; [reflexivity | eexists; reflexivity].
Qed.

End SchemaText.


(** X20 on a constructor that answers differently per dataset. *)
Lemma initialize_bigquery_client_once_witness :
  initialize_bigquery_client
    (fun _ dataset_id =>
       if String.eqb dataset_id "shop" then Ok users_only_runner
       else Ok (scripted_runner []))
    None "other" (_bq_client users_only_env)
  = (Ok users_only_runner, Some users_only_runner).
Proof.
  apply (initialize_bigquery_client_once
           (fun _ dataset_id =>
              if String.eqb dataset_id "shop" then Ok users_only_runner
              else Ok (scripted_runner []))
           None None "shop" "other" users_only_env);
    reflexivity.
Defined.

(** X9 without a client, on a state with a query and without a schema. *)
Lemma steps_without_client_witness :
  snd (execute_query_node no_client_env
         (apply_update (initial_state "q")
            (with_sql_query (Some "SELECT 1") no_update)) [])
  = []
  /\ snd (generate_sql_node no_client_env (initial_state "q") []) = [].
Proof.
  destruct (steps_without_client no_client_env
              (apply_update (initial_state "q")
                 (with_sql_query (Some "SELECT 1") no_update)) [] eq_refl)
    as [H _].
  destruct (steps_without_client no_client_env (initial_state "q") []
              eq_refl) as [_ H'].
  split.
  - now rewrite (H "SELECT 1" eq_refl ltac:(discriminate)).
  - now rewrite (H' eq_refl).
Defined.

(** X17 on a model that is rate-limited twice and answers the third
    invocation. *)
Lemma invoke_with_retry_result_witness :
  exists k,
    k < 3
    /\ invoked (snd (invoke_with_retry 3 limited_twice None fresh_clock))
       = 0 + k + 1
    /\ limited_twice (0 + k) = Ok "SELECT 1".
Proof.
  destruct (invoke_with_retry_result 3 limited_twice None fresh_clock)
    as (_ & H & _).
  destruct (H "SELECT 1" eq_refl) as (k & Hk & Hi & Hc & _).
  exists k. conjs; assumption.
Defined.

(* ===================================================================== *)
(** ** What a run keeps *)
(* ===================================================================== *)

Section RunInvariants.

Variable env : Env.

Lemma schema_fetches_one (table : string) (tr : Trace) (ev : Event) :
  (forall t, ev <> GetTableSchema t) ->
  schema_fetches table (tr ++ [ev])%list = schema_fetches table tr.
Proof.
  intros H. rewrite schema_fetches_app.
  destruct ev as [m|q|t]; [cbn; lia | cbn; lia | now elim (H t)].
Qed.

Lemma run_node_schema (n : Node.t) (state : AgentState) (tr : Trace) :
  truthy_schema (schema_context state) = true ->
  (forall table,
     schema_fetches table (snd (run_node env n state tr))
     = schema_fetches table tr)
  /\ (forall u, fst (run_node env n state tr) = Ok u ->
        schema_context (apply_update state u) = schema_context state).
Proof.
  intros T.
  assert (K : forall u, u_schema_context u = None ->
              schema_context (apply_update state u) = schema_context state)
    by (intros u Hu; unfold apply_update; cbn [schema_context];
        now rewrite Hu).
  destruct n; unfold run_node, bind, ret.
  - unfold analyze_request_node, bind, ret, llm_invoke, call.
    cbn [fst snd]. split.
    + intros table. apply schema_fetches_one. discriminate.
    + intros u [= <-]. apply K. now destruct (llm env tr _).
  - destruct (schema_context state) as [[|x sc]|] eqn:S; try discriminate.
    destruct (generate_sql_node_cached env state tr (x :: sc) S
                ltac:(discriminate)) as [Hf Hs].
    destruct (generate_sql_node env state tr) as [u' tr1].
    cbn [fst snd] in *. split; [exact Hf|].
    intros u [= <-]. now rewrite Hs.
  - unfold execute_query_node.
    destruct (sql_query state) as [[|c q]|]; cbn [fst snd ret];
      try (split; [reflexivity | intros u [= <-]; now apply K]).
    unfold execute_query_direct, get_bigquery_client, bind, call, ret.
    destruct (_bq_client env) as [client|]; cbn [fst snd].
    + destruct (execute_query client tr (String c q)); cbn [fst snd];
        (split; [intros table; apply schema_fetches_one; discriminate
                | intros u [= <-]; now apply K]).
    + split; [reflexivity | intros u [= <-]; now apply K].
  - unfold analyze_results_node.
    destruct (query_results state) as [df|]; cbn [fst snd ret];
      try (split; [reflexivity | intros u [= <-]; now apply K]).
    destruct (df_empty df); cbn [fst snd ret];
      try (split; [reflexivity | intros u [= <-]; now apply K]).
    unfold bind, ret, llm_invoke, call. cbn [fst snd]. split.
    + intros table. apply schema_fetches_one. discriminate.
    + intros u [= <-]. apply K. now destruct (llm env tr _).
  - cbn [fst snd]. split; [reflexivity|].
    intros u Hu. apply K.
    destruct (respond_node_messages state u Hu) as [m Hm].
    unfold respond_node in Hu.
    destruct (if truthy (error state) && negb (truthy (insights state))
              then _ else _) as [content|];
      destruct (match query_results state with
                | Some _ => _ | None => _ end) as [suffix|];
      try discriminate; now injection Hu as <-.
Qed.

Lemma graph_run_schema (limit : nat) :
  forall (n : Node.t) (state : AgentState) (tr : Trace),
    truthy_schema (schema_context state) = true ->
    (forall table,
       schema_fetches table (snd (graph_run env limit n state tr))
       = schema_fetches table tr)
    /\ (forall final,
          fst (graph_run env limit n state tr) = Finished final ->
          schema_context final = schema_context state).
Proof.
  induction limit as [|limit IH]; intros n state tr T.
  - cbn. split; [reflexivity | discriminate].
  - cbn [graph_run]. unfold bind.
    destruct (run_node_schema n state tr T) as [Hf Hs].
    destruct (run_node env n state tr) as [[u|e] tr1]; cbn [fst snd] in *.
    + specialize (Hs u eq_refl).
      destruct (next_node n (apply_update state u)) as [n'|].
      * assert (T' : truthy_schema (schema_context (apply_update state u))
                     = true) by now rewrite Hs.
        destruct (IH n' (apply_update state u) tr1 T') as [Hf' Hs'].
        split.
        -- intros table. now rewrite Hf', Hf.
        -- intros final E. now rewrite (Hs' final E).
      * cbn [fst snd ret]. split; [exact Hf|].
        destruct limit; [discriminate|]. now intros final [= <-].
    + cbn [fst snd ret]. split; [exact Hf | discriminate].
Qed.

(** X21.  Once the state holds a non-empty schema, the rest of the run,
    from whatever step and through whatever retries, asks the catalogue
    nothing and ends with the same schema. *)
Theorem cached_schema_is_kept (limit : nat) (n : Node.t)
    (state : AgentState) (tr : Trace) :
  truthy_schema (schema_context state) = true ->
  (forall table,
     schema_fetches table (snd (graph_run env limit n state tr))
     = schema_fetches table tr)
  /\ (forall final,
        fst (graph_run env limit n state tr) = Finished final ->
        schema_context final = schema_context state).
Proof. apply graph_run_schema. Qed.

Lemma graph_run_error (limit : nat) :
  forall (n : Node.t) (state final : AgentState) (tr : Trace),
    error state <> Some "" ->
    fst (graph_run env limit n state tr) = Finished final ->
    error final <> Some "".
Proof.
  induction limit as [|limit IH]; intros n state final tr Hs H;
    [discriminate|].
  cbn [graph_run] in H. unfold bind in H.
  destruct (run_node env n state tr) as [[u|e] tr1] eqn:R; [|discriminate].
  pose proof (error_never_empty env n state tr tr1 u Hs R) as Hs'.
  destruct (next_node n (apply_update state u)) as [n'|].
  - now apply (IH n' (apply_update state u) final tr1).
  - destruct limit; [discriminate|]. now injection H as <-.
Qed.

(** X22.  No step writes an empty error text, so a run that starts without
    one ends without one: in the final state [error] is absent or a
    non-empty text, and Python's truth test on it is the test for
    presence. *)
Theorem error_text_never_empty (limit : nat) (state final : AgentState)
    (tr : Trace) :
  error state <> Some "" ->
  fst (graph_invoke env limit state tr) = Finished final ->
  error final <> Some ""
  /\ (truthy (error final) = true <-> error final <> None).
Proof.
  intros Hs H.
  assert (E : error final <> Some "")
    by (apply (graph_run_error limit Node.analyze_request state final tr Hs H)).
  split; [exact E|].
  destruct (error final) as [[|c e]|]; cbn [truthy Py.nonempty].
  - now elim E.
  - split; [discriminate | reflexivity].
  - split; [discriminate | intros N; now elim N].
Qed.

End RunInvariants.

(** X21 on the rest of a run after a first successful generation. *)
Lemma cached_schema_is_kept_witness :
  schema_fetches "orders"
    (snd (graph_run one_failure_env 25 Node.execute_query
            (apply_update (initial_state "q")
               (with_schema_context (Some [("orders", [])])
                  (with_sql_query (Some "SELECT a FROM t") no_update)))
            [LlmInvoke []; LlmInvoke []]))
  = schema_fetches "orders" [LlmInvoke []; LlmInvoke []].
Proof.
  apply (cached_schema_is_kept one_failure_env 25 Node.execute_query
           (apply_update (initial_state "q")
              (with_schema_context (Some [("orders", [])])
                 (with_sql_query (Some "SELECT a FROM t") no_update)))
           [LlmInvoke []; LlmInvoke []]).
  reflexivity.
Defined.

(** X22 on a finished run. *)
Lemma error_text_never_empty_witness :
  exists final,
    fst (graph_invoke one_failure_env 25 (initial_state "q") [])
    = Finished final
    /\ error final <> Some "".
Proof.
  destruct (fst (graph_invoke one_failure_env 25 (initial_state "q") []))
    as [final|msg|] eqn:E; [| vm_compute in E; discriminate E
                              | vm_compute in E; discriminate E].
  exists final. split; [reflexivity|].
  apply (error_text_never_empty one_failure_env 25 (initial_state "q") final
           []); [discriminate | exact E].
Defined.

(** X16 on a run of five steps: under a limit of 6 the caller shows the
    message of the respond step, under a limit of 5 the recursion error. *)
Lemma run_analysis_response_witness :
  get_response_from_state
    (fst (run_analysis five_step_env 6 "Recursion limit reached" "q" []))
  = "Three rows." ++ data_summary three_rows
  /\ get_response_from_state
       (fst (run_analysis five_step_env 5 "Recursion limit reached" "q" []))
     = "An error occurred: Agent execution error: Recursion limit reached".
Proof.
  split.
  - destruct (run_analysis_response five_step_env 6 "Recursion limit reached"
                "q" [] ltac:(lia)) as (_ & H & _).
    destruct (fst (graph_invoke five_step_env 6 (initial_state "q") []))
      as [st|msg|] eqn:E; [| vm_compute in E; discriminate E
                            | vm_compute in E; discriminate E].
    destruct (H st eq_refl) as [-> Hm].
    assert (E' := E). vm_compute in E'. injection E' as <-.
    reflexivity.
  - destruct (run_analysis_response five_step_env 5 "Recursion limit reached"
                "q" [] ltac:(lia)) as (_ & _ & H).
    apply H. reflexivity.
Defined.

(* ===================================================================== *)
(** ** The routing after the execution step *)
(* ===================================================================== *)

Section RoutingAfterExecution.

Variable env : Env.

(** The execution step always writes [error]: [None], the text for a
    missing query, or a text under the label of an execution error. *)
Lemma execute_query_node_error (st : AgentState) (tr : Trace) :
  error (apply_update st (fst (execute_query_node env st tr))) <> Some "".
Proof.
  unfold execute_query_node.
  destruct (sql_query st) as [[|c q]|]; try discriminate.
  unfold bind, ret.
  destruct (execute_query_direct env (String c q) tr) as [[df|e] tr1];
    discriminate.
Qed.

(** C3.  On the state that the execution step leaves, the routing function
    returns, in this order of priority: the SQL-generation step when [error]
    is present and the retry is permitted; otherwise the analyze-results
    step when [query_results] is not absent; otherwise the respond step
    when [error] is present; otherwise, with no error and no results, the
    analyze-results step.  The execution step leaves no state of the last
    kind; the default is what the function returns on any state with no
    error and no results. *)
Theorem route_after_execution_after_execute (st : AgentState) (tr : Trace) :
  let state := apply_update st (fst (execute_query_node env st tr)) in
  (error state <> None /\ should_retry_query state = true ->
   route_after_execution state = Node.generate_sql)
  /\ (~ (error state <> None /\ should_retry_query state = true) ->
      query_results state <> None ->
      route_after_execution state = Node.analyze_results)
  /\ (~ (error state <> None /\ should_retry_query state = true) ->
      query_results state = None -> error state <> None ->
      route_after_execution state = Node.respond)
  /\ (~ (error state <> None /\ should_retry_query state = true) ->
      query_results state = None -> error state = None ->
      route_after_execution state = Node.analyze_results)
  /\ (forall s, error s = None -> query_results s = None ->
        route_after_execution s = Node.analyze_results).
Proof.
  cbv zeta.
  pose proof (execute_query_node_error st tr) as Hne.
  set (state := apply_update st (fst (execute_query_node env st tr))) in *.
  assert (P : error state <> None <-> error_set state).
  { split.
    - intros H. destruct (error state) as [e|] eqn:E; [|now elim H].
      exists e. split; [exact E | congruence].
    - intros (e & E & _). congruence. }
  destruct (route_after_execution_spec state) as (H1 & H2 & H3 & H4).
  conjs.
  - intros [Hp Hr]. apply H1. split; [now apply P | exact Hr].
  - intros N. apply H2. intros [Hs Hr]. apply N. split; [now apply P|exact Hr].
  - intros N Hq Hp. apply H3; [|exact Hq | now apply P].
    intros [Hs Hr]. apply N. split; [now apply P | exact Hr].
  - intros N Hq Hp. apply H4; [|exact Hq|].
    + intros [Hs Hr]. apply N. split; [now apply P | exact Hr].
    + intros Hs. apply P in Hs. congruence.
  - intros s He Hq.
    destruct (route_after_execution_spec s) as (_ & _ & _ & G).
    apply G; [|exact Hq|]; intros Hs;
      [destruct Hs as [(e & E & _) _] | destruct Hs as (e & E & _)];
      congruence.
Qed.

End RoutingAfterExecution.

(** C3 after three executions: a first failure is routed to the
    SQL-generation step, a success to the analyze-results step, and a
    second failure to the respond step; a state with no error and no
    results is routed to the analyze-results step. *)
Lemma route_after_execution_after_execute_witness :
  route_after_execution
    (apply_update (query_state 0)
       (fst (execute_query_node failing_env (query_state 0) [])))
  = Node.generate_sql
  /\ route_after_execution
       (apply_update (query_state 1)
          (fst (execute_query_node drop_env (query_state 1) [])))
     = Node.analyze_results
  /\ route_after_execution
       (apply_update (query_state 1)
          (fst (execute_query_node failing_env (query_state 1) [])))
     = Node.respond
  /\ route_after_execution (probe_state None 0 None) = Node.analyze_results.
Proof.
  split; [|split; [|split]].
  - destruct (route_after_execution_after_execute failing_env (query_state 0)
                []) as (H & _).
    apply H. split; [discriminate | reflexivity].
  - destruct (route_after_execution_after_execute drop_env (query_state 1) [])
      as (_ & H & _).
    apply H; [|discriminate]. intros [H' _]. now elim H'.
  - destruct (route_after_execution_after_execute failing_env (query_state 1)
                []) as (_ & _ & H & _).
    apply H; [|reflexivity | discriminate]. intros [_ H']. discriminate H'.
  - destruct (route_after_execution_after_execute failing_env (query_state 0)
                []) as (_ & _ & _ & _ & H).
    apply H; reflexivity.
Defined.
